(** * pycam.py: the streaming recording pipeline of [StreamingRecorder]

    A shallow embedding of [src/rpi_files/pycam.py].  The recorder object,
    the two module globals it uses, the file system, the table of child
    processes and the console are one explicit [state]; every method is a
    computation in a state-and-exception monad in which, as in Python, the
    mutations made before an exception is raised stay in place. *)

From Stdlib Require Import Strings.String Strings.Ascii Strings.Byte NArith List Bool Lia.
From stdpp Require Import base option list gmap strings.

Local Open Scope string_scope.
Local Open Scope N_scope.

(** ** Module constants (lines 34-38) *)

Definition START_COOLDOWN : N := 5.
Definition CHUNK_SIZE : N := 65536.

(** ** Exceptions *)

Inductive exn : Type :=
| FileNotFoundError
| FileExistsError
| IsADirectoryError
| PermissionError
| BrokenPipeError
| ProcessLookupError
| ValueError
| TimeoutExpired.

Definition is_TimeoutExpired (e : exn) : bool :=
  match e with TimeoutExpired => true | _ => false end.

(** ** The environment *)

(** What sits at a path: a regular file of some size, a named pipe, or a
    directory. *)
Inductive node : Type :=
| RegFile (size : N)
| Fifo
| Dir.

(** [st_size] as [os.path.getsize] reports it; a pipe has size 0.  The size
    reported for a directory depends on the file system; 4096 is used. *)
Definition node_size (n : node) : N :=
  match n with
  | RegFile sz => sz
  | Fifo => 0
  | Dir => 4096
  end.

(** A child process as [subprocess.Popen] sees it.  The [b_*] fields are
    fixed by the environment: how the process answers each request. *)
Record process : Type := mkProcess {
  p_cmd : string;
  p_alive : bool;              (* [poll() is None] *)
  p_has_stdin : bool;          (* [process.stdin] is a pipe, not [None] *)
  p_stdin_closed : bool;
  b_terminate_raises : bool;   (* [terminate()] raises *)
  b_close_raises : bool;       (* [stdin.close()] raises *)
  b_exits_in_grace : bool;     (* [wait(timeout=5)] returns *)
  b_kill_raises : bool         (* [kill()] raises *)
}.

(** What the process table and the file system were asked to do, in order. *)
Inductive event : Type :=
| EvRemove (path : string)
| EvMkfifo (path : string)
| EvMakedirs (path : string)
| EvPopen (cmd : string) (pid : nat)
| EvPoll (pid : nat)
| EvTerminate (pid : nat)
| EvCloseStdin (pid : nat)
| EvWaitTimeout (pid : nat)
| EvKill (pid : nat)
| EvWait (pid : nat)
| EvSleep (ms : N)
| EvLed (high : bool).

(** Daemon threads started by the recorder. *)
Inductive thread : Type :=
| ThStreamToPipe (camera_pid : nat) (pipe_path : string)
| ThCopyMp4ToOutput (mp4_pipe : string) (encrypted_output : string)
| ThBlinkLedRecording
| ThBlinkLedCooldown (cooldown_until : N).

(** The lines printed, one constructor per [print] of the modelled code. *)
Inductive msg : Type :=
| MsgErrorCreatingNamedPipe (e : exn)                (* line 57 *)
| MsgStartingCamera                                  (* line 62 *)
| MsgCameraPipePath (pipe_path : string)             (* line 63 *)
| MsgCameraCommand                                   (* line 80 *)
| MsgStartingConversion                              (* line 118 *)
| MsgErrorCreatingMp4Pipe (e : exn)                  (* line 128 *)
| MsgConceptualEncryption                            (* lines 171-174 *)
| MsgConceptuallyEncrypting (mp4_pipe out : string)  (* line 190 *)
| MsgPipelineStarted (out : string)                  (* line 254 *)
| MsgErrorStartingPipeline (e : exn)                 (* line 258 *)
| MsgStoppingPipeline                                (* line 266 *)
| MsgStoppingProcess (name : string)                 (* line 276 *)
| MsgStoppedGracefully (name : string)               (* line 293 *)
| MsgForceKilling (name : string)                    (* line 295 *)
| MsgErrorStopping (name : string) (e : exn)         (* line 300 *)
| MsgErrorCleaningPipes (e : exn)                    (* line 311 *)
| MsgRecordingComplete (out : string)                (* line 317 *)
| MsgFileSize (file_size : N)                        (* line 318 *)
| MsgWouldBeEncrypted                                (* line 319 *)
| MsgOutputEmpty                                     (* line 321 *)
| MsgNoOutputFile                                    (* line 323 *)
| MsgCreatedFolder (folder_path : string)            (* line 398 *)
| MsgCooldownActive (remaining : N)                  (* line 466 *)
| MsgButtonStart                                     (* line 469 *)
| MsgCooldownStarted                                 (* line 475 *)
| MsgFailedToStart                                   (* line 478 *)
| MsgButtonStop.                                     (* line 481 *)

(** ** The state *)

Record state : Type := mkState {
  (* the [StreamingRecorder] instance, lines 42-46 *)
  recording_active : bool;
  processes : gmap string nat;     (* stage name -> handle of the process *)
  output_file : option string;
  temp_fifo : option string;
  (* module global, line 36 *)
  ENCRYPTION_ACTIVE : bool;
  (* the environment *)
  fs : gmap string node;
  deny_remove : gset string;       (* paths [os.remove] is refused on *)
  deny_create : gset string;       (* paths nothing may be created at *)
  ptable : list process;           (* every process launched, by handle *)
  installed : string -> option process; (* what [Popen] of a command gives *)
  clock : string;                  (* the formatted New York time *)
  assets_dir : string;             (* [ASSETS_DIR], line 35 *)
  threads : list thread;
  led : bool;
  trace : list event;
  log : list msg
}.

(** [StreamingRecorder.__init__] in a given environment. *)
Definition init (fs0 : gmap string node) (dr dc : gset string)
    (inst : string -> option process) (now home : string) : state :=
  {| recording_active := false; processes := ∅; output_file := None;
     temp_fifo := None; ENCRYPTION_ACTIVE := false;
     fs := fs0; deny_remove := dr; deny_create := dc; ptable := [];
     installed := inst; clock := now; assets_dir := home;
     threads := []; led := false; trace := []; log := [] |}.

(** Field updates. *)
Definition set_recording_active (b : bool) (s : state) : state :=
  {| recording_active := b; processes := processes s;
     output_file := output_file s; temp_fifo := temp_fifo s;
     ENCRYPTION_ACTIVE := ENCRYPTION_ACTIVE s; fs := fs s;
     deny_remove := deny_remove s; deny_create := deny_create s;
     ptable := ptable s; installed := installed s; clock := clock s;
     assets_dir := assets_dir s; threads := threads s; led := led s;
     trace := trace s; log := log s |}.

Definition set_processes (m : gmap string nat) (s : state) : state :=
  {| recording_active := recording_active s; processes := m;
     output_file := output_file s; temp_fifo := temp_fifo s;
     ENCRYPTION_ACTIVE := ENCRYPTION_ACTIVE s; fs := fs s;
     deny_remove := deny_remove s; deny_create := deny_create s;
     ptable := ptable s; installed := installed s; clock := clock s;
     assets_dir := assets_dir s; threads := threads s; led := led s;
     trace := trace s; log := log s |}.

Definition set_output_file (o : option string) (s : state) : state :=
  {| recording_active := recording_active s; processes := processes s;
     output_file := o; temp_fifo := temp_fifo s;
     ENCRYPTION_ACTIVE := ENCRYPTION_ACTIVE s; fs := fs s;
     deny_remove := deny_remove s; deny_create := deny_create s;
     ptable := ptable s; installed := installed s; clock := clock s;
     assets_dir := assets_dir s; threads := threads s; led := led s;
     trace := trace s; log := log s |}.

Definition set_ENCRYPTION_ACTIVE (b : bool) (s : state) : state :=
  {| recording_active := recording_active s; processes := processes s;
     output_file := output_file s; temp_fifo := temp_fifo s;
     ENCRYPTION_ACTIVE := b; fs := fs s;
     deny_remove := deny_remove s; deny_create := deny_create s;
     ptable := ptable s; installed := installed s; clock := clock s;
     assets_dir := assets_dir s; threads := threads s; led := led s;
     trace := trace s; log := log s |}.

Definition set_fs (f : gmap string node) (s : state) : state :=
  {| recording_active := recording_active s; processes := processes s;
     output_file := output_file s; temp_fifo := temp_fifo s;
     ENCRYPTION_ACTIVE := ENCRYPTION_ACTIVE s; fs := f;
     deny_remove := deny_remove s; deny_create := deny_create s;
     ptable := ptable s; installed := installed s; clock := clock s;
     assets_dir := assets_dir s; threads := threads s; led := led s;
     trace := trace s; log := log s |}.

Definition set_ptable (t : list process) (s : state) : state :=
  {| recording_active := recording_active s; processes := processes s;
     output_file := output_file s; temp_fifo := temp_fifo s;
     ENCRYPTION_ACTIVE := ENCRYPTION_ACTIVE s; fs := fs s;
     deny_remove := deny_remove s; deny_create := deny_create s;
     ptable := t; installed := installed s; clock := clock s;
     assets_dir := assets_dir s; threads := threads s; led := led s;
     trace := trace s; log := log s |}.

Definition set_threads (t : list thread) (s : state) : state :=
  {| recording_active := recording_active s; processes := processes s;
     output_file := output_file s; temp_fifo := temp_fifo s;
     ENCRYPTION_ACTIVE := ENCRYPTION_ACTIVE s; fs := fs s;
     deny_remove := deny_remove s; deny_create := deny_create s;
     ptable := ptable s; installed := installed s; clock := clock s;
     assets_dir := assets_dir s; threads := t; led := led s;
     trace := trace s; log := log s |}.

Definition set_led (b : bool) (s : state) : state :=
  {| recording_active := recording_active s; processes := processes s;
     output_file := output_file s; temp_fifo := temp_fifo s;
     ENCRYPTION_ACTIVE := ENCRYPTION_ACTIVE s; fs := fs s;
     deny_remove := deny_remove s; deny_create := deny_create s;
     ptable := ptable s; installed := installed s; clock := clock s;
     assets_dir := assets_dir s; threads := threads s; led := b;
     trace := trace s; log := log s |}.

Definition set_trace (t : list event) (s : state) : state :=
  {| recording_active := recording_active s; processes := processes s;
     output_file := output_file s; temp_fifo := temp_fifo s;
     ENCRYPTION_ACTIVE := ENCRYPTION_ACTIVE s; fs := fs s;
     deny_remove := deny_remove s; deny_create := deny_create s;
     ptable := ptable s; installed := installed s; clock := clock s;
     assets_dir := assets_dir s; threads := threads s; led := led s;
     trace := t; log := log s |}.

Definition set_log (l : list msg) (s : state) : state :=
  {| recording_active := recording_active s; processes := processes s;
     output_file := output_file s; temp_fifo := temp_fifo s;
     ENCRYPTION_ACTIVE := ENCRYPTION_ACTIVE s; fs := fs s;
     deny_remove := deny_remove s; deny_create := deny_create s;
     ptable := ptable s; installed := installed s; clock := clock s;
     assets_dir := assets_dir s; threads := threads s; led := led s;
     trace := trace s; log := l |}.

(** ** The monad: state passing with exceptions that keep the state *)

Inductive res (A : Type) : Type :=
| Ok (a : A)
| Raise (e : exn).
Arguments Ok {A} a.
Arguments Raise {A} e.

Definition M (A : Type) : Type := state -> res A * state.

Definition ret {A} (a : A) : M A := fun s => (Ok a, s).

Definition bind {A B} (c : M A) (k : A -> M B) : M B :=
  fun s => match c s with
           | (Ok a, s') => k a s'
           | (Raise e, s') => (Raise e, s')
           end.

Definition raise {A} (e : exn) : M A := fun s => (Raise e, s).

(** [try: c  except <sel>: h] *)
Definition try_except {A} (c : M A) (sel : exn -> bool) (h : exn -> M A) : M A :=
  fun s => match c s with
           | (Ok a, s') => (Ok a, s')
           | (Raise e, s') => if sel e then h e s' else (Raise e, s')
           end.

(** [except Exception] and a bare [except] catch every [exn] above. *)
Definition any_exn (e : exn) : bool := true.

Definition gets {A} (f : state -> A) : M A := fun s => (Ok (f s), s).
Definition modify (f : state -> state) : M unit := fun s => (Ok tt, f s).

#[global] Instance M_ret : MRet M := @ret.
#[global] Instance M_bind : MBind M := fun A B k c => bind c k.

Definition emit (e : event) : M unit := modify (fun s => set_trace (trace s ++ [e]) s).
Definition print (m : msg) : M unit := modify (fun s => set_log (log s ++ [m]) s).
Definition sleep (ms : N) : M unit := emit (EvSleep ms).
Definition start_thread (t : thread) : M unit :=
  modify (fun s => set_threads (threads s ++ [t]) s).

(** ** [os.path] *)

Definition slash : ascii := "/"%char.

Definition is_slash (c : ascii) : bool := Ascii.eqb c slash.

Definition last_is_slash (a : string) : bool :=
  match rev (list_ascii_of_string a) with
  | c :: _ => is_slash c
  | [] => false
  end.

Definition first_is_slash (b : string) : bool :=
  match b with
  | String c _ => is_slash c
  | EmptyString => false
  end.

(** [posixpath.join(a, b)] *)
Definition path_join (a b : string) : string :=
  if first_is_slash b then b
  else if (String.eqb a "" || last_is_slash a)%bool then a ++ b
  else a ++ "/" ++ b.

Fixpoint drop_while {A} (f : A -> bool) (l : list A) : list A :=
  match l with
  | [] => []
  | x :: l' => if f x then drop_while f l' else l
  end.

(** [posixpath.dirname(p)]: everything up to the last slash, with the
    trailing slashes stripped unless it consists of slashes only. *)
Definition path_dirname (p : string) : string :=
  let head_rev := drop_while (fun c => negb (is_slash c)) (rev (list_ascii_of_string p)) in
  if forallb is_slash head_rev then string_of_list_ascii (rev head_rev)
  else string_of_list_ascii (rev (drop_while is_slash head_rev)).

(** ** [os] *)

Definition os_path_exists (path : string) : M bool :=
  gets (fun s => bool_decide (is_Some (fs s !! path))).

Definition os_remove (path : string) : M unit :=
  emit (EvRemove path);;
  s ← gets id;
  match fs s !! path with
  | None => raise FileNotFoundError
  | Some Dir => raise IsADirectoryError
  | Some _ =>
      if bool_decide (path ∈ deny_remove s) then raise PermissionError
      else modify (fun s => set_fs (delete path (fs s)) s)
  end.

Definition os_mkfifo (path : string) : M unit :=
  emit (EvMkfifo path);;
  s ← gets id;
  match fs s !! path with
  | Some _ => raise FileExistsError
  | None =>
      if bool_decide (path ∈ deny_create s) then raise PermissionError
      else modify (fun s => set_fs (<[path := Fifo]> (fs s)) s)
  end.

Definition os_path_getsize (path : string) : M N :=
  s ← gets id;
  match fs s !! path with
  | Some n => ret (node_size n)
  | None => raise FileNotFoundError
  end.

(** [os.makedirs(path, exist_ok=True)] *)
Definition os_makedirs (path : string) : M unit :=
  emit (EvMakedirs path);;
  s ← gets id;
  match fs s !! path with
  | Some Dir => ret tt
  | Some _ => raise FileExistsError
  | None =>
      if bool_decide (path ∈ deny_create s) then raise PermissionError
      else modify (fun s => set_fs (<[path := Dir]> (fs s)) s)
  end.

(** ** [subprocess.Popen] *)

(** [Popen(cmd, stdin=PIPE or not)]: a command that is not installed raises;
    otherwise the new process gets the next handle.  Whether it is still
    running when first polled is for the environment to say. *)
Definition Popen (cmd : string) (stdin_pipe : bool) : M nat :=
  s ← gets id;
  match installed s cmd with
  | None => raise FileNotFoundError
  | Some p =>
      let pid := length (ptable s) in
      let p' := mkProcess cmd (p_alive p) stdin_pipe false (b_terminate_raises p)
                  (b_close_raises p) (b_exits_in_grace p) (b_kill_raises p) in
      modify (fun s => set_ptable (ptable s ++ [p']) s);;
      emit (EvPopen cmd pid);;
      ret pid
  end.

Definition the_process (pid : nat) : M process :=
  s ← gets id;
  match ptable s !! pid with
  | Some p => ret p
  | None => raise ProcessLookupError
  end.

Definition put_process (pid : nat) (p : process) : M unit :=
  modify (fun s => set_ptable (<[pid := p]> (ptable s)) s).

Definition exited (p : process) : process :=
  mkProcess (p_cmd p) false (p_has_stdin p) (p_stdin_closed p) (b_terminate_raises p)
    (b_close_raises p) (b_exits_in_grace p) (b_kill_raises p).

Definition stdin_closed (p : process) : process :=
  mkProcess (p_cmd p) (p_alive p) (p_has_stdin p) true (b_terminate_raises p)
    (b_close_raises p) (b_exits_in_grace p) (b_kill_raises p).

(** [process.poll() is None] *)
Definition poll_is_None (pid : nat) : M bool :=
  emit (EvPoll pid);;
  p ← the_process pid;
  ret (p_alive p).

(** [process.terminate()] *)
Definition terminate (pid : nat) : M unit :=
  emit (EvTerminate pid);;
  p ← the_process pid;
  if b_terminate_raises p then raise PermissionError else ret tt.

(** [process.stdin] is not [None] *)
Definition has_stdin (pid : nat) : M bool :=
  p ← the_process pid;
  ret (p_has_stdin p).

(** [process.stdin.close()]: the descriptor is closed even when the final
    flush raises. *)
Definition stdin_close (pid : nat) : M unit :=
  emit (EvCloseStdin pid);;
  p ← the_process pid;
  put_process pid (stdin_closed p);;
  if b_close_raises p then raise BrokenPipeError else ret tt.

(** [process.wait(timeout=5)] *)
Definition wait_timeout (pid : nat) : M unit :=
  emit (EvWaitTimeout pid);;
  p ← the_process pid;
  if p_alive p then
    if b_exits_in_grace p then put_process pid (exited p) else raise TimeoutExpired
  else ret tt.

(** [process.kill()] *)
Definition kill (pid : nat) : M unit :=
  emit (EvKill pid);;
  p ← the_process pid;
  if b_kill_raises p then raise PermissionError else put_process pid (exited p).

(** [process.wait()]: returns once the process has exited. *)
Definition wait (pid : nat) : M unit :=
  emit (EvWait pid);;
  p ← the_process pid;
  put_process pid (exited p).

(** [GPIO.output(LED_PIN, level)] *)
Definition GPIO_output_LED (high : bool) : M unit :=
  modify (set_led high);;
  emit (EvLed high).

(** ** Python idioms *)

(** Truth value of a string: [""] is false. *)
Definition truthy (x : string) : bool := negb (String.eqb x "").

(** [for x in l: body] *)
Fixpoint for_each {A} (l : list A) (body : A -> M unit) : M unit :=
  match l with
  | [] => ret tt
  | x :: l' => body x;; for_each l' body
  end.

Definition name_in (name : string) (l : list string) : bool :=
  existsb (String.eqb name) l.

(** ** [StreamingRecorder] *)

(** Lines 52-54 and 124-126: the body of both [try] blocks that make a
    channel. *)
Definition remove_then_mkfifo (pipe_path : string) : M unit :=
  ex ← os_path_exists pipe_path;
  (if ex : bool then os_remove pipe_path else ret tt);;
  os_mkfifo pipe_path.

(** Lines 48-58. *)
Definition create_named_pipe (folder_path : string) : M (option string) :=
  let pipe_path := path_join folder_path "video_stream" in
  try_except
    (remove_then_mkfifo pipe_path;;
     ret (Some pipe_path))
    any_exn
    (fun e => print (MsgErrorCreatingNamedPipe e);;
              ret None).

(** Lines 60-114.  The body of [stream_to_pipe] is [stream_to_pipe] below;
    here the thread is only started. *)
Definition start_camera_capture (pipe_path : string) : M nat :=
  print MsgStartingCamera;;
  print (MsgCameraPipePath pipe_path);;
  print MsgCameraCommand;;
  camera_process ← Popen "rpicam-vid" false;
  start_thread (ThStreamToPipe camera_process pipe_path);;
  ret camera_process.

(** Lines 116-145.  The result [None] stands for the pair [(None, None)]. *)
Definition start_ffmpeg_conversion (pipe_path output_path : string)
    : M (option (nat * string)) :=
  print MsgStartingConversion;;
  let mp4_pipe := path_join (path_dirname pipe_path) "mp4_stream" in
  created ← try_except
    (remove_then_mkfifo mp4_pipe;;
     ret true)
    any_exn
    (fun e => print (MsgErrorCreatingMp4Pipe e);;
              ret false);
  if created : bool then
    ffmpeg_process ← Popen "ffmpeg" true;
    ret (Some (ffmpeg_process, mp4_pipe))
  else ret None.

(** Lines 147-191. *)
Definition start_gpg_encryption (mp4_pipe encrypted_output : string) : M (option nat) :=
  print MsgConceptualEncryption;;
  print (MsgConceptuallyEncrypting mp4_pipe encrypted_output);;
  ret None.

(** Lines 271-300: the body of the loop over the stage names. *)
Definition stop_process (process_name : string) : M unit :=
  s ← gets id;
  match processes s !! process_name with
  | None => ret tt
  | Some process =>
      try_except
        (alive ← poll_is_None process;
         if alive : bool then
           print (MsgStoppingProcess process_name);;
           (if String.eqb process_name "camera" then
              terminate process;;
              sleep 1000
            else ret tt);;
           (if name_in process_name ["ffmpeg"; "gpg"] then
              stdin ← has_stdin process;
              if stdin : bool then
                try_except (stdin_close process) any_exn (fun _ => ret tt)
              else ret tt
            else ret tt);;
           try_except
             (wait_timeout process;;
              print (MsgStoppedGracefully process_name))
             is_TimeoutExpired
             (fun _ => print (MsgForceKilling process_name);;
                       kill process;;
                       wait process)
         else ret tt)
        any_exn
        (fun e => print (MsgErrorStopping process_name e))
  end.

(** Lines 302-311. *)
Definition cleanup_pipes : M unit :=
  try_except
    (s ← gets id;
     match output_file s with
     | Some out =>
         if truthy out then
           let folder_path := path_dirname out in
           if truthy folder_path then
             for_each ["video_stream"; "mp4_stream"] (fun pipe_name =>
               let pipe_path := path_join folder_path pipe_name in
               ex ← os_path_exists pipe_path;
               if ex : bool then os_remove pipe_path else ret tt)
           else ret tt
         else ret tt
     | None => ret tt
     end)
    any_exn
    (fun e => print (MsgErrorCleaningPipes e)).

(** Lines 313-323. *)
Definition check_final_output : M unit :=
  s ← gets id;
  match output_file s with
  | Some out =>
      ex ← os_path_exists out;
      if (truthy out && ex)%bool then
        file_size ← os_path_getsize out;
        if 0 <? file_size then
          print (MsgRecordingComplete out);;
          print (MsgFileSize file_size);;
          print MsgWouldBeEncrypted
        else print MsgOutputEmpty
      else print MsgNoOutputFile
  | None => print MsgNoOutputFile
  end.

(** Lines 262-328. *)
Definition stop_streaming_recording : M unit :=
  print MsgStoppingPipeline;;
  modify (set_recording_active false);;
  modify (set_ENCRYPTION_ACTIVE false);;
  for_each ["camera"; "ffmpeg"; "gpg"] stop_process;;
  cleanup_pipes;;
  check_final_output;;
  modify (set_processes ∅);;
  modify (set_output_file None);;
  GPIO_output_LED false.

Definition set_process (name : string) (pid : nat) : M unit :=
  modify (fun s => set_processes (<[name := pid]> (processes s)) s).

(** Lines 193-260.  The body of [copy_mp4_to_output] is [copy_mp4_to_output]
    below; here the thread is only started. *)
Definition start_streaming_recording (folder_path : string) : M bool :=
  modify (set_recording_active true);;
  timestamp ← gets clock;
  let encrypted_output := path_join folder_path ("recording_" ++ timestamp ++ ".mp4") in
  try_except
    (camera_pipe ← create_named_pipe folder_path;
     match camera_pipe with
     | None => ret false
     | Some camera_pipe =>
         camera_process ← start_camera_capture camera_pipe;
         set_process "camera" camera_process;;
         sleep 500;;
         r ← start_ffmpeg_conversion camera_pipe encrypted_output;
         match r with
         | None => ret false
         | Some (ffmpeg_process, mp4_pipe) =>
             set_process "ffmpeg" ffmpeg_process;;
             sleep 500;;
             gpg_process ← start_gpg_encryption mp4_pipe encrypted_output;
             match gpg_process with
             | Some gpg_process => set_process "gpg" gpg_process
             | None => start_thread (ThCopyMp4ToOutput mp4_pipe encrypted_output)
             end;;
             modify (set_output_file (Some encrypted_output));;
             modify (set_ENCRYPTION_ACTIVE true);;
             start_thread ThBlinkLedRecording;;
             print (MsgPipelineStarted encrypted_output);;
             ret true
         end
     end)
    any_exn
    (fun e => print (MsgErrorStartingPipeline e);;
              stop_streaming_recording;;
              ret false).

(** ** The button loop of [main] *)

(** Lines 391-400. *)
Definition create_recording_folder : M string :=
  s ← gets id;
  let folder_path := path_join (assets_dir s) ("recording_" ++ clock s) in
  os_makedirs folder_path;;
  print (MsgCreatedFolder folder_path);;
  ret folder_path.

(** Lines 366-370. *)
Definition start_cooldown_blink (cooldown_until : N) : M unit :=
  start_thread (ThBlinkLedCooldown cooldown_until).

(** Lines 456-485: what one release of the button does.  Times are in
    milliseconds; the result is the new [start_cooldown_until]. *)
Definition button_released (press_duration current_time start_cooldown_until : N) : M N :=
  r ← (if press_duration <? 500 then
         s ← gets id;
         if negb (recording_active s) then
           if current_time <? start_cooldown_until then
             print (MsgCooldownActive (start_cooldown_until - current_time));;
             ret start_cooldown_until
           else
             print MsgButtonStart;;
             folder ← create_recording_folder;
             started ← start_streaming_recording folder;
             if started : bool then
               let until := current_time + START_COOLDOWN * 1000 in
               print MsgCooldownStarted;;
               start_cooldown_blink until;;
               ret until
             else
               print MsgFailedToStart;;
               ret start_cooldown_until
         else
           print MsgButtonStop;;
           stop_streaming_recording;;
           ret start_cooldown_until
       else ret start_cooldown_until);
  sleep 200;;
  ret r.

(** ** The two pumps

    A pump runs in a thread of its own, against a source and a sink it does
    not control.  One [tick] is what the environment shows the pump during
    one turn of its loop; a pump is run on a finite script of ticks, and a
    script that ends while the loop would go on leaves the pump [Running]. *)

Inductive read_result : Type :=
| ReadData (data : list byte)     (* [[]] is the zero-length read *)
| ReadRaises (e : exn).

Record tick : Type := mkTick {
  t_active : bool;          (* [self.recording_active] at the loop test *)
  t_alive : bool;           (* [camera_process.poll() is None] at the loop test *)
  t_read : read_result;     (* what [read(CHUNK_SIZE)] gives *)
  t_write_raises : option exn   (* [write]/[flush] raises *)
}.

Inductive pump_status : Type :=
| Running
| Exited
| Failed (e : exn).

Inductive pump_msg : Type :=
| PmOpeningPipe (pipe_path : string)                     (* line 94 *)
| PmPipeOpened                                           (* line 96 *)
| PmStreamed (bytes_written chunk_count : N)             (* line 105 *)
| PmTotalBytesStreamed (bytes_written chunk_count : N)   (* line 108 *)
| PmStreamError (e : exn)                                (* line 110 *)
| PmBytesBeforeError (bytes_written : N)                 (* line 111 *)
| PmErrorCopying (e : exn).                              (* line 242 *)

Record pump : Type := mkPump {
  bytes_written : N;
  chunk_count : N;
  sink : list byte;        (* everything written to the sink, in order *)
  naps : nat;               (* how often the pump slept for a millisecond *)
  said : list pump_msg
}.

Definition pump0 : pump := mkPump 0 0 [] 0 [].

Definition say (m : pump_msg) (p : pump) : pump :=
  mkPump (bytes_written p) (chunk_count p) (sink p) (naps p) (said p ++ [m]).

Definition nap (p : pump) : pump :=
  mkPump (bytes_written p) (chunk_count p) (sink p) (S (naps p)) (said p).

(** [pipe_out.write(data); pipe_out.flush()] *)
Definition write_flush (data : list byte) (p : pump) : pump :=
  mkPump (bytes_written p) (chunk_count p) (sink p ++ data) (naps p) (said p).

(** Lines 102-105. *)
Definition count_chunk (data : list byte) (p : pump) : pump :=
  let p' := mkPump (bytes_written p + N.of_nat (length data)) (chunk_count p + 1)
              (sink p) (naps p) (said p) in
  if chunk_count p' mod 100 =? 0
  then say (PmStreamed (bytes_written p') (chunk_count p')) p'
  else p'.

(** Lines 97-107: the [while] loop of [stream_to_pipe]. *)
Fixpoint stream_to_pipe_loop (script : list tick) (p : pump) : pump_status * pump :=
  match script with
  | [] => (Running, p)
  | t :: script' =>
      if (t_active t && t_alive t)%bool then
        match t_read t with
        | ReadRaises e => (Failed e, p)
        | ReadData [] => stream_to_pipe_loop script' (nap p)
        | ReadData data =>
            match t_write_raises t with
            | Some e => (Failed e, p)
            | None => stream_to_pipe_loop script' (count_chunk data (write_flush data p))
            end
        end
      else (Exited, p)
  end.

(** Lines 90-111.  [open_raises] is what [open(pipe_path, 'wb')] does. *)
Definition stream_to_pipe (pipe_path : string) (open_raises : option exn)
    (script : list tick) : pump_status * pump :=
  let p := say (PmOpeningPipe pipe_path) pump0 in
  let r := match open_raises with
           | Some e => (Failed e, p)
           | None => stream_to_pipe_loop script (say PmPipeOpened p)
           end in
  match r with
  | (Exited, p) =>
      (Exited, say (PmTotalBytesStreamed (bytes_written p) (chunk_count p)) p)
  | (Failed e, p) =>
      (Failed e, say (PmBytesBeforeError (bytes_written p)) (say (PmStreamError e) p))
  | (Running, p) => (Running, p)
  end.

(** Lines 235-240: the [while] loop of [copy_mp4_to_output]. *)
Fixpoint copy_mp4_to_output_loop (script : list tick) (p : pump) : pump_status * pump :=
  match script with
  | [] => (Running, p)
  | t :: script' =>
      if t_active t then
        match t_read t with
        | ReadRaises e => (Failed e, p)
        | ReadData [] => (Exited, p)
        | ReadData data =>
            match t_write_raises t with
            | Some e => (Failed e, p)
            | None => copy_mp4_to_output_loop script' (write_flush data p)
            end
        end
      else (Exited, p)
  end.

(** Lines 232-242.  This pump keeps no count: [bytes_written] and
    [chunk_count] stay 0. *)
Definition copy_mp4_to_output (open_raises : option exn) (script : list tick)
    : pump_status * pump :=
  let r := match open_raises with
           | Some e => (Failed e, pump0)
           | None => copy_mp4_to_output_loop script pump0
           end in
  match r with
  | (Failed e, p) => (Failed e, say (PmErrorCopying e) p)
  | r => r
  end.

(** * Vocabulary of the statements *)

(** ** Hoare triples *)

(** [triple P c Q E]: started in a state satisfying [P], the computation [c]
    either returns [a] in a state satisfying [Q a], or raises [e] in a state
    satisfying [E e]. *)
Definition triple {A} (P : state -> Prop) (c : M A)
    (Q : A -> state -> Prop) (E : exn -> state -> Prop) : Prop :=
  forall s, P s ->
    match c s with
    | (Ok a, s') => Q a s'
    | (Raise e, s') => E e s'
    end.

(** [c] keeps [P], whether it returns or raises. *)
Definition preserves {A} (P : state -> Prop) (c : M A) : Prop :=
  triple P c (fun _ => P) (fun _ => P).

(** [c] keeps [P] and never raises. *)
Definition safe {A} (P : state -> Prop) (c : M A) : Prop :=
  triple P c (fun _ => P) (fun _ _ => False).

(** A property is [stable] when it does not look at the console, the event
    trace, the file system, the process table, the threads or the LED: the
    steps below then keep it. *)
Record stable (P : state -> Prop) : Prop := {
  stable_log : forall l s, P s -> P (set_log l s);
  stable_trace : forall t s, P s -> P (set_trace t s);
  stable_fs : forall f s, P s -> P (set_fs f s);
  stable_ptable : forall t s, P s -> P (set_ptable t s);
  stable_threads : forall t s, P s -> P (set_threads t s);
  stable_led : forall b s, P s -> P (set_led b s)
}.

(** ** Observations *)

(** No session: the flag is down, no stage is registered, no output file is
    set. *)
Definition idle (s : state) : Prop :=
  recording_active s = false /\ processes s = ∅ /\ output_file s = None.

(** What the recorder owns and works on. *)
Definition pipeline_state (s : state) :=
  (recording_active s, processes s, output_file s, temp_fifo s,
   fs s, ptable s, threads s).

(** What drives the LED. *)
Definition status (s : state) := (ENCRYPTION_ACTIVE s, led s).

(** What making a channel and launching a stage leave alone. *)
Definition core (s : state) :=
  (recording_active s, processes s, output_file s, ENCRYPTION_ACTIVE s,
   ptable s, threads s, clock s).

(** [c] raises when run in [s]. *)
Definition raises {A} (c : M A) (s : state) : Prop := exists e, (c s).1 = Raise e.

(** The trace starts with [t]. *)
Definition has_prefix (t : list event) (s : state) : Prop :=
  exists evs, trace s = (t ++ evs)%list.

(** A request made to a process. *)
Definition is_process_event (e : event) : bool :=
  match e with
  | EvTerminate _ | EvCloseStdin _ | EvWaitTimeout _ | EvKill _ | EvWait _ => true
  | _ => false
  end.

(** The requests made to processes, in order. *)
Definition process_events (t : list event) : list event :=
  List.filter is_process_event t.

(** ** Stopping *)


(** The second half: the check of the output and the reset. *)
Definition finish : M unit :=
  check_final_output;;
  modify (set_processes ∅);;
  modify (set_output_file None);;
  GPIO_output_LED false.

(** The report that closes a run of [stop_streaming_recording], read off
    the console. *)
Inductive verdict : Type :=
| Complete (file_size : N)     (* lines 317-319 *)
| EmptyOutput                  (* line 321 *)
| NoOutput.                    (* line 323 *)

(** The last report on the console, if it ends with one. *)
Definition last_report (l : list msg) : option verdict :=
  match rev l with
  | MsgWouldBeEncrypted :: MsgFileSize n :: MsgRecordingComplete _ :: _ => Some (Complete n)
  | MsgOutputEmpty :: _ => Some EmptyOutput
  | MsgNoOutputFile :: _ => Some NoOutput
  | _ => None
  end.




(** The handles registered under the other names are not [pid]. *)
Definition own_handle (s : state) (name : string) (pid : nat) : Prop :=
  forall name' pid', name' <> name -> processes s !! name' = Some pid' -> pid' <> pid.

(** ** Creating a channel *)

(** The state once whatever was at [path] has been removed. *)
Definition without (path : string) (s : state) : state :=
  set_fs (delete path (fs s)) s.

(** The events of a successful creation: a removal first when there was
    something at the path. *)
Definition creation_events (path : string) (s : state) : list event :=
  if bool_decide (is_Some (fs s !! path))
  then [EvRemove path; EvMkfifo path]
  else [EvMkfifo path].

(** How [remove_then_mkfifo] can end. *)
Inductive channel_made (path : string) (s : state) : res unit -> state -> Prop :=
| RemovalFailed e s' :
    is_Some (fs s !! path) -> raises (os_remove path) s ->
    fs s' = fs s ->
    channel_made path s (Raise e) s'
| CreationFailed e s' :
    raises (os_mkfifo path) (without path s) ->
    fs s' = delete path (fs s) ->
    channel_made path s (Raise e) s'
| Created s' :
    ~ (is_Some (fs s !! path) /\ raises (os_remove path) s) ->
    ~ raises (os_mkfifo path) (without path s) ->
    fs s' = <[path := Fifo]> (fs s) ->
    trace s' = (trace s ++ creation_events path s)%list ->
    channel_made path s (Ok tt) s'.

(** What the steps of a creation leave alone. *)
Definition same_but_fs_trace (s s' : state) : Prop :=
  recording_active s' = recording_active s /\ processes s' = processes s /\
  output_file s' = output_file s /\ ENCRYPTION_ACTIVE s' = ENCRYPTION_ACTIVE s /\
  ptable s' = ptable s /\ threads s' = threads s /\ log s' = log s /\
  deny_remove s' = deny_remove s /\ deny_create s' = deny_create s /\
  installed s' = installed s.

(** ** Runs of a recorder *)

(** What can happen to a recorder. *)
Inductive op : Type :=
| OpStart (folder_path : string)                        (* [start_streaming_recording] *)
| OpStop                                                (* [stop_streaming_recording] *)
| OpFs (f : gmap string node -> gmap string node)       (* the file system changes *)
| OpProcess (pid : nat) (p : process)                   (* a process changes state *)
| OpClock (now : string).                               (* time passes *)

Definition apply_op (o : op) (s : state) : state :=
  match o with
  | OpStart folder_path => (start_streaming_recording folder_path s).2
  | OpStop => (stop_streaming_recording s).2
  | OpFs f => set_fs (f (fs s)) s
  | OpProcess pid p => set_ptable (<[pid := p]> (ptable s)) s
  | OpClock now =>
      {| recording_active := recording_active s; processes := processes s;
         output_file := output_file s; temp_fifo := temp_fifo s;
         ENCRYPTION_ACTIVE := ENCRYPTION_ACTIVE s; fs := fs s;
         deny_remove := deny_remove s; deny_create := deny_create s;
         ptable := ptable s; installed := installed s; clock := now;
         assets_dir := assets_dir s; threads := threads s; led := led s;
         trace := trace s; log := log s |}
  end.

Definition run (ops : list op) (s : state) : state :=
  fold_left (fun s o => apply_op o s) ops s.

(** No cipher stage is registered. *)
Definition no_gpg (s : state) : Prop := processes s !! "gpg" = None.

(** ** The pumps *)

(** The byte count of a pump is the number of bytes it has written. *)
Definition counted (p : pump) : Prop := bytes_written p = N.of_nat (length (sink p)).

(** ** Sample environments and sessions *)

(** A running process that does what it is asked. *)
Definition well_behaved : process :=
  mkProcess "" true false false false false true false.

Definition all_installed (cmd : string) : option process := Some well_behaved.

Definition session_fs : gmap string node := {[ "/home/pi/assets/rec" := Dir ]}.

Definition session_folder : string := "/home/pi/assets/rec".

Definition session_output : string :=
  "/home/pi/assets/rec/recording_2025-01-01_10H-00M-00S.mp4".

(** A fresh recorder on a machine where everything works. *)
Definition fresh : state :=
  init session_fs ∅ ∅ all_installed "2025-01-01_10H-00M-00S" "/home/pi/assets".

(** The fresh recorder after one successful start. *)
Definition started : state := (start_streaming_recording session_folder fresh).2.

(** The same once the copy thread has written a megabyte. *)
Definition recorded : state :=
  set_fs (<[session_output := RegFile 1048576]> (fs started)) started.

(** A folder in which the MP4 pipe cannot be made: a directory sits at its
    path, which [os.remove] refuses. *)
Definition blocked_mp4_fs : gmap string node :=
  {[ "/home/pi/assets/rec" := Dir; "/home/pi/assets/rec/mp4_stream" := Dir ]}.

Definition blocked_mp4 : state :=
  init blocked_mp4_fs ∅ ∅ all_installed "2025-01-01_10H-00M-00S" "/home/pi/assets".

(** A machine without ffmpeg. *)
Definition only_camera (cmd : string) : option process :=
  if String.eqb cmd "ffmpeg" then None else Some well_behaved.

Definition no_ffmpeg : state :=
  init session_fs ∅ ∅ only_camera "2025-01-01_10H-00M-00S" "/home/pi/assets".

(** A folder in which the camera pipe cannot be made. *)
Definition blocked_camera_fs : gmap string node :=
  {[ "/home/pi/assets/rec" := Dir; "/home/pi/assets/rec/video_stream" := Dir ]}.

Definition blocked_camera : state :=
  init blocked_camera_fs ∅ ∅ all_installed "2025-01-01_10H-00M-00S" "/home/pi/assets".

(** A camera that cannot be signalled: [terminate()] raises. *)
Definition unsignalled_camera (cmd : string) : option process :=
  if String.eqb cmd "rpicam-vid"
  then Some (mkProcess "" true false false true false true false)
  else Some well_behaved.

Definition started_unsignalled : state :=
  (start_streaming_recording session_folder
     (init session_fs ∅ ∅ unsignalled_camera "2025-01-01_10H-00M-00S" "/home/pi/assets")).2.

Definition chunk_abc : list byte := [x61; x62; x63].

(** The camera closes its output, then writes again, then exits. *)
Definition stutter : list tick :=
  [ mkTick true true (ReadData []) None;
    mkTick true true (ReadData chunk_abc) None;
    mkTick true false (ReadData []) None ].

(** ** Paths *)

(** No slash occurs in [x]. *)
Definition no_slash (x : string) : Prop :=
  forallb (fun c => negb (is_slash c)) (list_ascii_of_string x) = true.

(** A folder path as [create_recording_folder] builds them: not empty and
    not ending in a slash. *)
Definition plain_folder (folder : string) : Prop :=
  folder <> "" /\ last_is_slash folder = false.

(** ** The file system *)

(** [os.remove] would go through at [path], or there is nothing to remove. *)
Definition removable (s : state) (path : string) : Prop :=
  match fs s !! path with
  | Some Dir => False
  | Some _ => path ∉ deny_remove s
  | None => True
  end.

(** A property is [calm] when it does not look at the console, the event
    trace or the process table. *)
Record calm (P : state -> Prop) : Prop := {
  calm_log : forall l s, P s -> P (set_log l s);
  calm_trace : forall t s, P s -> P (set_trace t s);
  calm_ptable : forall t s, P s -> P (set_ptable t s)
}.

(** Lines 266-300 of [stop_streaming_recording]: the flags and the stages. *)
Definition stop_stages : M unit :=
  print MsgStoppingPipeline;;
  modify (set_recording_active false);;
  modify (set_ENCRYPTION_ACTIVE false);;
  for_each ["camera"; "ffmpeg"; "gpg"] stop_process.

(** ** Scripts for the pumps *)

(** A turn on which the flag is up, the camera runs, the read gives [data]
    and the write goes through. *)
Definition good_tick (data : list byte) : tick := mkTick true true (ReadData data) None.

Definition nonempty (data : list byte) : bool :=
  match data with [] => false | _ => true end.

(** The progress lines of line 105 among what a pump said. *)
Definition progress_lines (l : list pump_msg) : nat :=
  length (List.filter (fun m => match m with PmStreamed _ _ => true | _ => false end) l).

(** ** More sample sessions *)

(** A session whose camera pipe may not be removed. *)
Definition pinned_camera_pipe : state :=
  (start_streaming_recording session_folder
     (init session_fs {[ "/home/pi/assets/rec/video_stream" ]} ∅ all_installed
        "2025-01-01_10H-00M-00S" "/home/pi/assets")).2.

(** A regular file sits where the session folder of this second would go. *)
Definition folder_taken : state :=
  init (<["/home/pi/assets/recording_2025-01-01_10H-00M-00S" := RegFile 7]> session_fs)
    ∅ ∅ all_installed "2025-01-01_10H-00M-00S" "/home/pi/assets".

(** * Path examples *)

Example path_join_ex : path_join "/home/pi/assets/rec" "video_stream" = "/home/pi/assets/rec/video_stream".
Proof. reflexivity. Qed.

Example path_dirname_ex : path_dirname "/home/pi/assets/rec/recording_t.mp4" = "/home/pi/assets/rec".
Proof. reflexivity. Qed.

Example path_dirname_root : path_dirname "/x" = "/".
Proof. reflexivity. Qed.

Example path_dirname_none : path_dirname "x" = "".
Proof. reflexivity. Qed.

(** * Reasoning about computations *)

Section Rules.
Context {A B : Type}.
Implicit Types (P : state -> Prop) (E : exn -> state -> Prop).

Lemma triple_conseq P P' (c : M A) Q Q' E E' :
    triple P' c Q' E' ->
    (forall s, P s -> P' s) ->
    (forall a s, Q' a s -> Q a s) ->
    (forall e s, E' e s -> E e s) ->
    triple P c Q E.
Proof.
    intros Hc HP HQ HE s Hs. specialize (Hc s (HP s Hs)).
    destruct (c s) as [[a|e] s']; eauto.
Qed.

Lemma triple_ret (Q : A -> state -> Prop) E (a : A) : triple (Q a) (ret a) Q E.
Proof. intros s Hs. exact Hs. Qed.

Lemma triple_raise (Q : A -> state -> Prop) E e : triple (E e) (raise e) Q E.
Proof. intros s Hs. exact Hs. Qed.

Lemma triple_bind P (c : M A) (k : A -> M B) R Q E :
    triple P c R E ->
    (forall a, triple (R a) (k a) Q E) ->
    triple P (c ≫= k) Q E.
Proof.
    intros Hc Hk s Hs. specialize (Hc s Hs).
    unfold mbind, M_bind, bind. destruct (c s) as [[a|e] s']; [|done].
    exact (Hk a s' Hc).
Qed.

Lemma triple_try P (c : M A) sel h Q E E' :
    triple P c Q E' ->
    (forall e, sel e = true -> triple (E' e) (h e) Q E) ->
    (forall e s, sel e = false -> E' e s -> E e s) ->
    triple P (try_except c sel h) Q E.
Proof.
    intros Hc Hh Hn s Hs. specialize (Hc s Hs). unfold try_except.
    destruct (c s) as [[a|e] s']; [done|].
    destruct (sel e) eqn:He; [exact (Hh e He s' Hc) | eauto].
Qed.

Lemma preserves_ret P (a : A) : preserves P (ret a).
Proof. intros s Hs. exact Hs. Qed.

Lemma preserves_raise P e : preserves P (raise e : M A).
Proof. intros s Hs. exact Hs. Qed.

Lemma preserves_gets P (f : state -> A) : preserves P (gets f).
Proof. intros s Hs. exact Hs. Qed.

Lemma preserves_bind P (c : M A) (k : A -> M B) :
    preserves P c -> (forall a, preserves P (k a)) -> preserves P (c ≫= k).
Proof. intros Hc Hk. eapply triple_bind; [exact Hc | exact Hk]. Qed.

Lemma preserves_try P (c : M A) sel h :
    preserves P c -> (forall e, preserves P (h e)) -> preserves P (try_except c sel h).
Proof. intros Hc Hh. eapply triple_try; [exact Hc | intros; apply Hh | auto]. Qed.

Lemma safe_preserves P (c : M A) : safe P c -> preserves P c.
Proof. intros Hc. eapply triple_conseq; [exact Hc | auto | auto | contradiction]. Qed.

Lemma safe_ret P (a : A) : safe P (ret a).
Proof. intros s Hs. exact Hs. Qed.

Lemma safe_gets P (f : state -> A) : safe P (gets f).
Proof. intros s Hs. exact Hs. Qed.

Lemma safe_bind P (c : M A) (k : A -> M B) :
    safe P c -> (forall a, safe P (k a)) -> safe P (c ≫= k).
Proof. intros Hc Hk. eapply triple_bind; [exact Hc | exact Hk]. Qed.

  (** A handler for every exception makes the whole [try] safe. *)
Lemma safe_try_any P (c : M A) h :
    preserves P c -> (forall e, safe P (h e)) -> safe P (try_except c any_exn h).
Proof. intros Hc Hh. eapply triple_try; [exact Hc | intros; apply Hh | discriminate]. Qed.
End Rules.

Lemma preserves_modify P (f : state -> state) :
  (forall s, P s -> P (f s)) -> preserves P (modify f).
Proof. intros Hf s Hs. exact (Hf s Hs). Qed.

Lemma safe_modify P (f : state -> state) :
  (forall s, P s -> P (f s)) -> safe P (modify f).
Proof. intros Hf s Hs. exact (Hf s Hs). Qed.

Lemma preserves_for_each {A} P (l : list A) (body : A -> M unit) :
  (forall x, preserves P (body x)) -> preserves P (for_each l body).
Proof.
  intros Hb. induction l as [|x l IH]; simpl.
  - apply preserves_ret.
  - apply preserves_bind; auto.
Qed.

Lemma safe_for_each {A} P (l : list A) (body : A -> M unit) :
  (forall x, safe P (body x)) -> safe P (for_each l body).
Proof.
  intros Hb. induction l as [|x l IH]; simpl.
  - apply safe_ret.
  - apply safe_bind; auto.
Qed.

(** Closes the goals a walk leaves when the property is [stable]. *)
Ltac stab :=
  first [ by apply stable_log | by apply stable_trace | by apply stable_fs
        | by apply stable_ptable | by apply stable_threads | by apply stable_led ].

(** Walks through a computation, one rule per construct. *)
Ltac walk1 :=
  first
    [ apply preserves_ret | apply preserves_raise | apply preserves_gets
    | apply safe_ret | apply safe_gets
    | apply preserves_bind; [|intros ?] | apply safe_bind; [|intros ?]
    | apply preserves_try; [|intros ?] | apply safe_try_any; [|intros ?]
    | apply preserves_for_each; intros ? | apply safe_for_each; intros ?
    | apply preserves_modify; intros ? ? | apply safe_modify; intros ? ?
    | match goal with
      | |- preserves _ (if ?b then _ else _) => destruct b
      | |- safe _ (if ?b then _ else _) => destruct b
      | |- preserves _ (match ?x with _ => _ end) => destruct x
      | |- safe _ (match ?x with _ => _ end) => destruct x
      end ].

Ltac walk := repeat walk1.

Section Stable.
Variable P : state -> Prop.
Hypothesis HP : stable P.

Lemma preserves_remove_then_mkfifo path : preserves P (remove_then_mkfifo path).
Proof. unfold remove_then_mkfifo, os_path_exists, os_remove, os_mkfifo, emit. walk; stab. Qed.

Lemma preserves_Popen cmd stdin_pipe : preserves P (Popen cmd stdin_pipe).
Proof. unfold Popen, emit. walk; stab. Qed.

Lemma safe_print m : safe P (print m).
Proof. unfold print. walk; stab. Qed.

Lemma safe_GPIO_output_LED b : safe P (GPIO_output_LED b).
Proof. unfold GPIO_output_LED, emit. walk; stab. Qed.

  (** The loop body of [stop_streaming_recording] never raises. *)
Lemma safe_stop_process name : safe P (stop_process name).
Proof.
    unfold stop_process, poll_is_None, terminate, has_stdin, stdin_close,
      wait_timeout, kill, wait, the_process, put_process, sleep, emit, print.
    walk; stab.
Qed.

Lemma safe_cleanup_pipes : safe P cleanup_pipes.
Proof. unfold cleanup_pipes, os_path_exists, os_remove, emit, print. walk; stab. Qed.

Lemma safe_create_named_pipe folder : safe P (create_named_pipe folder).
Proof.
    unfold create_named_pipe, remove_then_mkfifo, os_path_exists, os_remove,
      os_mkfifo, emit, print.
    walk; stab.
Qed.
End Stable.

(** * Stopping *)

Ltac stable_tac := constructor; intros; simpl in *; intuition auto.

Lemma stable_True : stable (fun _ => True).
Proof. stable_tac. Qed.


(** The size is asked for only after the file was seen to exist, so the
    check of the output never raises. *)
Lemma safe_check_final_output P : stable P -> safe P check_final_output.
Proof.
  intros HP s Hs. unfold check_final_output, os_path_exists, os_path_getsize, print.
  unfold mbind, M_bind, bind, gets, modify, ret, raise. simpl.
  destruct (output_file s) as [out|]; simpl; [|stab].
  destruct (fs s !! out) as [n|] eqn:Hn; simpl.
  - destruct (truthy out); simpl; [|stab].
    rewrite Hn. simpl. destruct (0 <? node_size n); simpl; [|stab].
    by do 3 (apply stable_log; [done|]).
  - rewrite andb_false_r. stab.
Qed.

Lemma bind_assoc {A B C} (c : M A) (k : A -> M B) (k' : B -> M C) s :
  ((c ≫= k) ≫= k') s = (c ≫= (fun a => k a ≫= k')) s.
Proof. unfold mbind, M_bind, bind. by destruct (c s) as [[a|e] s']. Qed.

Lemma bind_ext {A B} (c : M A) (k k' : A -> M B) s :
  (forall a s', k a s' = k' a s') -> (c ≫= k) s = (c ≫= k') s.
Proof. intros H. unfold mbind, M_bind, bind. destruct (c s) as [[a|e] s']; auto. Qed.



Lemma triple_modify P (f : state -> state) (Q : unit -> state -> Prop) E :
  (forall s, P s -> Q tt (f s)) -> triple P (modify f) Q E.
Proof. intros Hf s Hs. exact (Hf s Hs). Qed.

Lemma stable_flags_down :
  stable (fun s => recording_active s = false /\ ENCRYPTION_ACTIVE s = false).
Proof. stable_tac. Qed.

(** However it is entered, [stop_streaming_recording] returns, and leaves
    the recorder idle with the LED off. *)
Lemma stop_post :
  triple (fun _ => True) stop_streaming_recording
    (fun _ s' => idle s' /\ status s' = (false, false))
    (fun _ _ => False).
Proof.
  pose proof stable_flags_down as HP.
  unfold stop_streaming_recording.
  eapply triple_bind; [apply (safe_print _ stable_True) | intros ?].
  eapply triple_bind with (R := fun _ s => recording_active s = false);
    [by apply triple_modify | intros ?].
  eapply triple_bind
    with (R := fun _ s => recording_active s = false /\ ENCRYPTION_ACTIVE s = false);
    [by apply triple_modify | intros ?].
  eapply triple_bind; [apply safe_for_each; intros; by apply safe_stop_process | intros ?].
  eapply triple_bind; [by apply safe_cleanup_pipes | intros ?].
  eapply triple_bind; [by apply safe_check_final_output | intros ?].
  intros s [Hr He]. unfold idle, status. simpl. rewrite Hr, He. auto.
Qed.

Lemma stop_returns s : (stop_streaming_recording s).1 = Ok tt.
Proof.
  pose proof (stop_post s I) as H.
  destruct (stop_streaming_recording s) as [[[]|e] s']; [done | contradiction].
Qed.

Lemma stop_leaves_idle s :
  idle (stop_streaming_recording s).2 /\ status (stop_streaming_recording s).2 = (false, false).
Proof.
  pose proof (stop_post s I) as H.
  destruct (stop_streaming_recording s) as [[[]|e] s']; [done | contradiction].
Qed.

(** On an idle recorder [stop_streaming_recording] only prints two lines and
    switches the LED off. *)
Lemma stop_of_idle s :
  idle s ->
  stop_streaming_recording s =
    (Ok tt,
     set_trace (trace s ++ [EvLed false])
       (set_led false
          (set_log ((log s ++ [MsgStoppingPipeline]) ++ [MsgNoOutputFile])
             (set_ENCRYPTION_ACTIVE false s)))).
Proof.
  intros (Hr & Hp & Ho). destruct s. simpl in *. subst.
  reflexivity.
Qed.

Lemma truthy_nonempty x : x <> "" -> truthy x = true.
Proof. intros H. unfold truthy. by apply negb_true_iff, String.eqb_neq. Qed.



(** ** C5 *)

(** C5.  Stopping is idempotent.  On an idle recorder (flag down, no stage
    registered, no output file) [stop_streaming_recording] returns without
    raising and leaves the recorder, the file system, the process table and
    the threads as they were, and the LED state too when it was off; and
    from any state, a second stop after a first returns and changes neither
    of them. *)
Theorem stop_idempotent (s : state) :
  (idle s ->
     (stop_streaming_recording s).1 = Ok tt /\
     pipeline_state (stop_streaming_recording s).2 = pipeline_state s /\
     trace (stop_streaming_recording s).2 = (trace s ++ [EvLed false])%list /\
     (status s = (false, false) -> status (stop_streaming_recording s).2 = status s)) /\
  (let s1 := (stop_streaming_recording s).2 in
   (stop_streaming_recording s).1 = Ok tt /\
   (stop_streaming_recording s1).1 = Ok tt /\
   pipeline_state (stop_streaming_recording s1).2 = pipeline_state s1 /\
   status (stop_streaming_recording s1).2 = status s1).
Proof.
  assert (Hidle : forall s0, idle s0 ->
     (stop_streaming_recording s0).1 = Ok tt /\
     pipeline_state (stop_streaming_recording s0).2 = pipeline_state s0 /\
     trace (stop_streaming_recording s0).2 = (trace s0 ++ [EvLed false])%list /\
     (status s0 = (false, false) -> status (stop_streaming_recording s0).2 = status s0)).
  { intros s0 Hs0. rewrite (stop_of_idle s0 Hs0). simpl.
    repeat split. unfold status. simpl. congruence. }
  split; [apply Hidle|]. simpl.
  destruct (stop_leaves_idle s) as [Hi Hst].
  destruct (Hidle _ Hi) as (H1 & H2 & _ & H3).
  repeat split; auto using stop_returns.
Qed.

Lemma stop_idempotent_witness :
  idle fresh /\
  pipeline_state (stop_streaming_recording fresh).2 = pipeline_state fresh.
Proof.
  assert (H : idle fresh) by (repeat split).
  split; [exact H|].
  exact (proj1 (proj2 (proj1 (stop_idempotent fresh) H))).
Defined.

(** ** C8 *)


(** * Creating a channel *)

Lemma os_remove_run path s n :
  fs s !! path = Some n ->
  (os_remove path s =
     (Ok tt, set_fs (delete path (fs s)) (set_trace (trace s ++ [EvRemove path]) s)))
  \/ (exists e, os_remove path s = (Raise e, set_trace (trace s ++ [EvRemove path]) s)).
Proof.
  intros Hn. unfold os_remove, emit.
  unfold mbind, M_bind, bind, gets, modify, raise. simpl. rewrite Hn.
  destruct n; [|..|by eauto]; case_bool_decide; eauto.
Qed.

Lemma os_mkfifo_run path s :
  fs s !! path = None ->
  os_mkfifo path s =
    if bool_decide (path ∈ deny_create s)
    then (Raise PermissionError, set_trace (trace s ++ [EvMkfifo path]) s)
    else (Ok tt, set_fs (<[path := Fifo]> (fs s)) (set_trace (trace s ++ [EvMkfifo path]) s)).
Proof.
  intros Hn. unfold os_mkfifo, emit.
  unfold mbind, M_bind, bind, gets, modify, raise. simpl. rewrite Hn.
  by case_bool_decide.
Qed.

Lemma raises_mkfifo_fresh path s :
  fs s !! path = None -> raises (os_mkfifo path) s <-> path ∈ deny_create s.
Proof.
  intros Hn. unfold raises. rewrite (os_mkfifo_run _ _ Hn).
  case_bool_decide; simpl; split; eauto; try done.
  intros [e He]. done.
Qed.

Lemma raises_mkfifo_without path s :
  raises (os_mkfifo path) (without path s) <-> path ∈ deny_create s.
Proof. rewrite raises_mkfifo_fresh by (simpl; apply lookup_delete_eq). done. Qed.

Lemma remove_then_mkfifo_made path s :
  channel_made path s (remove_then_mkfifo path s).1 (remove_then_mkfifo path s).2 /\
  same_but_fs_trace s (remove_then_mkfifo path s).2.
Proof.
  unfold remove_then_mkfifo, os_path_exists.
  unfold mbind, M_bind, bind, gets. simpl.
  destruct (fs s !! path) as [n|] eqn:Hn.
  - rewrite bool_decide_true by eauto.
    destruct (os_remove_run _ _ _ Hn) as [Hrm | [e Hrm]]; rewrite Hrm.
    + rewrite os_mkfifo_run by (simpl; apply lookup_delete_eq). simpl.
      case_bool_decide as Hd; simpl; (split; [|by repeat split]).
      * apply CreationFailed; [by apply raises_mkfifo_without | done].
      * apply Created; simpl.
        -- intros [_ [e He]]. by rewrite Hrm in He.
        -- by rewrite raises_mkfifo_without.
        -- apply insert_delete_eq.
        -- unfold creation_events. rewrite Hn, bool_decide_true by eauto.
           by rewrite <- app_assoc.
    + simpl. split; [|by repeat split].
      apply RemovalFailed; [eauto | | done]. exists e. by rewrite Hrm.
  - rewrite bool_decide_false by apply is_Some_None. unfold ret.
    rewrite os_mkfifo_run by done.
    case_bool_decide as Hd; simpl; (split; [|by repeat split]).
    + apply CreationFailed; [by apply raises_mkfifo_without|].
      simpl. symmetry. by apply delete_id.
    + apply Created; simpl.
      * rewrite Hn. intros [[]%is_Some_None _].
      * by rewrite raises_mkfifo_without.
      * done.
      * unfold creation_events. rewrite Hn.
        by rewrite bool_decide_false by apply is_Some_None.
Qed.

Lemma raises_os_remove_iff path s :
  raises (os_remove path) s <->
  match fs s !! path with
  | None | Some Dir => True
  | Some _ => path ∈ deny_remove s
  end.
Proof.
  unfold raises, os_remove, emit.
  unfold mbind, M_bind, bind, gets, modify, raise. simpl.
  destruct (fs s !! path) as [[]|]; try case_bool_decide; simpl;
    split; eauto; try done; intros [e He]; done.
Qed.

(** Printing does not change how a creation ends. *)
Lemma channel_made_print path l s r s' :
  channel_made path (set_log l s) r s' -> channel_made path s r s'.
Proof.
  intros H. destruct H as [e s' Hs Hr Hfs | e s' Hr Hfs | s' Hn1 Hn2 Hfs Htr].
  - apply RemovalFailed; [done | | done].
    apply raises_os_remove_iff. by apply raises_os_remove_iff in Hr.
  - apply CreationFailed; [|done].
    apply raises_mkfifo_without. by apply raises_mkfifo_without in Hr.
  - apply Created; [| | done | done].
    + intros [Hs Hr]. apply Hn1. split; [done|].
      apply raises_os_remove_iff. by apply raises_os_remove_iff in Hr.
    + intros Hr. apply Hn2.
      apply raises_mkfifo_without. by apply raises_mkfifo_without in Hr.
Qed.

(** ** C9 *)

(** C9.  Both places that make a channel, [create_named_pipe] and the pipe
    of [start_ffmpeg_conversion], end in one of three ways ([channel_made]):
    whatever was at the path has been removed first and a fresh pipe is
    there, and the path is returned; or the removal raised, nothing was
    touched and the result is [None]; or the creation raised, nothing is at
    the path and the result is [None].  Neither function raises for a failed
    channel, and [start_ffmpeg_conversion] launches no process then; with
    the pipe made it goes on to launch ffmpeg. *)
Theorem channel_creation (folder_path pipe_path output_path : string) (s : state) :
  (let path := path_join folder_path "video_stream" in
   (exists s', create_named_pipe folder_path s = (Ok (Some path), s') /\
               channel_made path s (Ok tt) s')
   \/ (exists e s1 s', create_named_pipe folder_path s = (Ok None, s') /\
               channel_made path s (Raise e) s1 /\ fs s' = fs s1)) /\
  (let path := path_join (path_dirname pipe_path) "mp4_stream" in
   (exists r s1 s', start_ffmpeg_conversion pipe_path output_path s = (r, s') /\
               channel_made path s (Ok tt) s1 /\ fs s' = fs s1 /\
               (r = Raise FileNotFoundError \/ exists pid, r = Ok (Some (pid, path))))
   \/ (exists e s1 s', start_ffmpeg_conversion pipe_path output_path s = (Ok None, s') /\
               channel_made path s (Raise e) s1 /\ fs s' = fs s1 /\
               ptable s' = ptable s)).
Proof.
  split.
  - simpl. unfold create_named_pipe, try_except, print.
    set (path := path_join folder_path "video_stream").
    destruct (remove_then_mkfifo_made path s) as [Hm _].
    unfold mbind, M_bind, bind, modify, ret.
    destruct (remove_then_mkfifo path s) as [[[]|e] s1]; simpl in *.
    + left. eauto.
    + right. exists e, s1. eexists. split; [reflexivity|]. split; [done|]. done.
  - simpl. unfold start_ffmpeg_conversion, try_except, print.
    set (path := path_join (path_dirname pipe_path) "mp4_stream").
    unfold mbind, M_bind, bind, modify, ret.
    set (s0 := set_log (log s ++ [MsgStartingConversion]) s).
    destruct (remove_then_mkfifo_made path s0) as [Hm Hsame].
    destruct (remove_then_mkfifo path s0) as [[[]|e] s1]; simpl in *.
    + left. apply channel_made_print in Hm.
      unfold Popen, mbind, M_bind, bind, gets, raise, emit, modify, ret. simpl.
      destruct (installed s1 "ffmpeg") as [p|]; simpl.
      * eexists _, s1, _. split; [reflexivity|]. split; [done|]. split; [done|]. eauto.
      * eexists _, s1, _. split; [reflexivity|]. split; [done|]. split; [done|]. eauto.
    + right. apply channel_made_print in Hm. exists e, s1. eexists.
      split; [reflexivity|]. split; [done|]. split; [done|]. simpl.
      by destruct Hsame as (_ & _ & _ & _ & -> & _).
Qed.


Example stop_reports_empty_output :
  last_report (log (stop_streaming_recording
     (set_fs (<[session_output := RegFile 0]> (fs started)) started)).2)
  = Some EmptyOutput.
Proof. vm_compute. reflexivity. Qed.

Example stop_reports_missing_output :
  last_report (log (stop_streaming_recording started).2) = Some NoOutput.
Proof. vm_compute. reflexivity. Qed.

(** * Starting *)

Lemma create_named_pipe_core folder s :
  match create_named_pipe folder s with
  | (Ok r, s') =>
      core s' = core s /\ (r = None \/ r = Some (path_join folder "video_stream"))
  | (Raise _, _) => False
  end.
Proof.
  unfold create_named_pipe, remove_then_mkfifo, os_path_exists, os_remove, os_mkfifo,
    emit, print, try_except.
  unfold mbind, M_bind, bind, gets, modify, ret, raise. simpl.
  repeat (case_match; simplify_eq/=; try done); auto.
Qed.

Lemma start_camera_capture_core pipe_path s :
  match start_camera_capture pipe_path s with
  | (Ok pid, s') =>
      pid = length (ptable s) /\
      length (ptable s') = S (length (ptable s)) /\
      threads s' = (threads s ++ [ThStreamToPipe pid pipe_path])%list /\
      recording_active s' = recording_active s /\ processes s' = processes s /\
      output_file s' = output_file s /\ ENCRYPTION_ACTIVE s' = ENCRYPTION_ACTIVE s /\
      clock s' = clock s
  | (Raise _, _) => True
  end.
Proof.
  unfold start_camera_capture, Popen, start_thread, emit, print.
  unfold mbind, M_bind, bind, gets, modify, ret, raise. simpl.
  repeat (case_match; simplify_eq/=; try done).
  rewrite length_app. simpl. repeat split. lia.
Qed.

Lemma start_ffmpeg_conversion_core pipe_path output_path s :
  match start_ffmpeg_conversion pipe_path output_path s with
  | (Ok (Some (pid, mp4_pipe)), s') =>
      pid = length (ptable s) /\
      mp4_pipe = path_join (path_dirname pipe_path) "mp4_stream" /\
      length (ptable s') = S (length (ptable s)) /\
      threads s' = threads s /\
      recording_active s' = recording_active s /\ processes s' = processes s /\
      output_file s' = output_file s /\ ENCRYPTION_ACTIVE s' = ENCRYPTION_ACTIVE s /\
      clock s' = clock s
  | _ => True
  end.
Proof.
  unfold start_ffmpeg_conversion, remove_then_mkfifo, os_path_exists, os_remove,
    os_mkfifo, Popen, emit, print, try_except.
  unfold mbind, M_bind, bind, gets, modify, ret, raise. simpl.
  repeat (case_match; simplify_eq/=; try done).
  all: rewrite length_app; simpl; repeat split; lia.
Qed.

#[local] Arguments create_named_pipe : simpl never.
#[local] Arguments start_camera_capture : simpl never.
#[local] Arguments start_ffmpeg_conversion : simpl never.
#[local] Arguments stop_streaming_recording : simpl never.

(** What a start that returns [True] has done. *)
Lemma start_true folder s :
  (start_streaming_recording folder s).1 = Ok true ->
  let s' := (start_streaming_recording folder s).2 in
  let out := path_join folder ("recording_" ++ clock s ++ ".mp4") in
  let camera_pipe := path_join folder "video_stream" in
  let mp4_pipe := path_join (path_dirname camera_pipe) "mp4_stream" in
  let camera := length (ptable s) in
  recording_active s' = true /\
  ENCRYPTION_ACTIVE s' = true /\
  output_file s' = Some out /\
  processes s' = <["ffmpeg" := S camera]> (<["camera" := camera]> (processes s)) /\
  length (ptable s') = S (S camera) /\
  threads s' = (threads s ++ [ThStreamToPipe camera camera_pipe;
                              ThCopyMp4ToOutput mp4_pipe out;
                              ThBlinkLedRecording])%list.
Proof.
  unfold start_streaming_recording, try_except, start_gpg_encryption, set_process,
    start_thread, sleep, emit, print.
  unfold mbind, M_bind, bind, gets, modify, ret. simpl.
  pose proof (create_named_pipe_core folder (set_recording_active true s)) as Hcnp.
  destruct (create_named_pipe folder (set_recording_active true s))
    as [[[cp|]|e] s1]; simpl; try done.
  destruct Hcnp as [Hc1 [?|?]]; simplify_eq.
  pose proof (start_camera_capture_core (path_join folder "video_stream") s1) as Hscc.
  destruct (start_camera_capture _ s1) as [[pid|e] s2]; simpl.
  2: { by destruct (stop_streaming_recording _) as [[[]|?] ?]. }
  destruct Hscc as (-> & Hpt & Hth & Hr & Hp & Ho & He & Hcl).
  match goal with |- context [start_ffmpeg_conversion ?a ?b ?st] =>
    pose proof (start_ffmpeg_conversion_core a b st) as Hsfc;
    destruct (start_ffmpeg_conversion a b st) as [[[[ff mp4]|]|e] s3] end; simpl.
  2: done.
  2: { by destruct (stop_streaming_recording _) as [[[]|?] ?]. }
  simpl in Hsfc. destruct Hsfc as (-> & -> & Hpt3 & Hth3 & Hr3 & Hp3 & Ho3 & He3 & Hcl3).
  intros _. simpl in *. rewrite Hp3, Hth3, Hth, Hpt3, Hpt, <- !app_assoc. simpl.
  repeat split; congruence.
Qed.

Lemma start_gpg_encryption_None mp4_pipe encrypted_output s :
  start_gpg_encryption mp4_pipe encrypted_output s =
    (Ok None,
     set_log ((log s ++ [MsgConceptualEncryption]) ++
              [MsgConceptuallyEncrypting mp4_pipe encrypted_output]) s).
Proof. destruct s. reflexivity. Qed.

Lemma preserves_bind_gpg {B} P mp4_pipe encrypted_output (k : option nat -> M B) :
  (forall l s, P s -> P (set_log l s)) ->
  preserves P (k None) ->
  preserves P (start_gpg_encryption mp4_pipe encrypted_output ≫= k).
Proof.
  intros Hl Hk s Hs. unfold mbind, M_bind, bind.
  rewrite start_gpg_encryption_None. apply Hk. by apply Hl.
Qed.

Ltac no_gpg_tac :=
  unfold no_gpg in *; simpl in *;
  rewrite ?lookup_insert_ne, ?lookup_empty by done; done.

Lemma stop_keeps_no_gpg : preserves no_gpg stop_streaming_recording.
Proof.
  unfold stop_streaming_recording, stop_process, cleanup_pipes, check_final_output,
    GPIO_output_LED, poll_is_None, terminate, has_stdin, stdin_close, wait_timeout,
    kill, wait, the_process, put_process, os_path_exists, os_remove, os_path_getsize,
    sleep, emit, print.
  walk; no_gpg_tac.
Qed.

Lemma start_keeps_no_gpg folder : preserves no_gpg (start_streaming_recording folder).
Proof.
  unfold start_streaming_recording.
  apply preserves_bind; [apply preserves_modify; intros; no_gpg_tac | intros _].
  apply preserves_bind; [apply preserves_gets | intros timestamp].
  apply preserves_try.
  2: { intros e. apply preserves_bind; [apply preserves_modify; intros; no_gpg_tac|intros _].
       apply preserves_bind; [apply stop_keeps_no_gpg | intros _]. apply preserves_ret. }
  unfold create_named_pipe, start_camera_capture, start_ffmpeg_conversion,
    remove_then_mkfifo, set_process, start_thread, Popen,
    os_path_exists, os_remove, os_mkfifo, sleep, emit, print.
  repeat first [ apply preserves_bind_gpg; [intros; no_gpg_tac|] | walk1 ].
  all: no_gpg_tac.
Qed.

Lemma run_keeps_no_gpg ops s : no_gpg s -> no_gpg (run ops s).
Proof.
  revert s. induction ops as [|o ops IH]; intros s Hs; [done|].
  simpl. apply IH. destruct o; simpl; try done.
  - pose proof (start_keeps_no_gpg folder_path s Hs) as H.
    by destruct (start_streaming_recording folder_path s) as [[?|?] ?].
  - pose proof (stop_keeps_no_gpg s Hs) as H.
    by destruct (stop_streaming_recording s) as [[?|?] ?].
Qed.

Lemma path_join_nonempty a b : b <> "" -> path_join a b <> "".
Proof.
  intros Hb. unfold path_join. destruct (first_is_slash b); [done|].
  destruct (String.eqb a "" || last_is_slash a)%bool; destruct a; simpl; done.
Qed.

(** The output path of a session that started is never the empty string. *)
Lemma start_output_nonempty folder s :
  (start_streaming_recording folder s).1 = Ok true ->
  exists out, output_file (start_streaming_recording folder s).2 = Some out /\ out <> "".
Proof.
  intros H. destruct (start_true folder s H) as (_ & _ & Ho & _).
  eexists. split; [exact Ho|]. by apply path_join_nonempty.
Qed.

(** ** C10 *)

(** C10.  [start_gpg_encryption] always returns [None] and launches nothing;
    so through any sequence of starts, stops and changes of the environment
    of a new recorder the key ["gpg"] is never in [processes]; and every
    start that returns [True] has started the thread that copies the MP4 pipe
    to the output file as it is. *)
Theorem gpg_never_spawned :
  (forall mp4_pipe encrypted_output s,
     (start_gpg_encryption mp4_pipe encrypted_output s).1 = Ok None /\
     ptable (start_gpg_encryption mp4_pipe encrypted_output s).2 = ptable s /\
     trace (start_gpg_encryption mp4_pipe encrypted_output s).2 = trace s) /\
  (forall ops fs0 dr dc inst now home,
     processes (run ops (init fs0 dr dc inst now home)) !! "gpg" = None) /\
  (forall folder_path s,
     (start_streaming_recording folder_path s).1 = Ok true ->
     ThCopyMp4ToOutput
       (path_join (path_dirname (path_join folder_path "video_stream")) "mp4_stream")
       (path_join folder_path ("recording_" ++ clock s ++ ".mp4"))
     ∈ threads (start_streaming_recording folder_path s).2).
Proof.
  split; [|split].
  - intros. by rewrite start_gpg_encryption_None.
  - intros. by apply run_keeps_no_gpg.
  - intros folder_path s H.
    destruct (start_true folder_path s H) as (_ & _ & _ & _ & _ & ->).
    set_solver.
Qed.

Lemma gpg_never_spawned_witness :
  ThCopyMp4ToOutput "/home/pi/assets/rec/mp4_stream" session_output ∈ threads started.
Proof.
  assert (H : (start_streaming_recording session_folder fresh).1 = Ok true)
    by (vm_compute; reflexivity).
  exact (proj2 (proj2 gpg_never_spawned) session_folder fresh H).
Defined.

(** ** C1 *)

(** A second start on the running session of [started] goes through: it
    returns [True], launches two more processes and registers them in place
    of the first two, which are still running. *)
Lemma start_while_active_reenters :
  recording_active started = true /\
  (start_streaming_recording session_folder started).1 = Ok true /\
  processes started !! "camera" = Some 0%nat /\
  processes (start_streaming_recording session_folder started).2 !! "camera" = Some 2%nat /\
  length (ptable (start_streaming_recording session_folder started).2) = 4%nat /\
  p_alive <$> ptable (start_streaming_recording session_folder started).2 !! 0%nat = Some true.
Proof. vm_compute. repeat split. Qed.

Lemma stop_keeps_ptable_length n :
  preserves (fun s => length (ptable s) = n) stop_streaming_recording.
Proof.
  unfold stop_streaming_recording, stop_process, cleanup_pipes, check_final_output,
    GPIO_output_LED, poll_is_None, terminate, has_stdin, stdin_close, wait_timeout,
    kill, wait, the_process, put_process, os_path_exists, os_remove, os_path_getsize,
    sleep, emit, print.
  walk; simpl in *; rewrite ?length_insert; done.
Qed.

(** C1, as the code has it.  [start_streaming_recording] has no guard of its
    own; the guard is in the button loop of [main]: with [recording_active]
    up, a short press never calls start.  It calls
    [stop_streaming_recording], and no process is launched. *)
Theorem button_while_active_stops (s : state) (press_duration current_time until : N) :
  recording_active s = true ->
  press_duration < 500 ->
  button_released press_duration current_time until s =
    (print MsgButtonStop;; stop_streaming_recording;; sleep 200;; ret until) s /\
  length (ptable (button_released press_duration current_time until s).2) =
    length (ptable s).
Proof.
  intros Hr Hd.
  assert (Heq : button_released press_duration current_time until s =
    (print MsgButtonStop;; stop_streaming_recording;; sleep 200;; ret until) s).
  { unfold button_released. apply N.ltb_lt in Hd. rewrite Hd.
    unfold mbind, M_bind, bind, gets, print, modify, ret, sleep, emit. simpl.
    rewrite Hr. simpl.
    by destruct (stop_streaming_recording _) as [[[]|e] s']. }
  split; [exact Heq|]. rewrite Heq.
  unfold mbind, M_bind, bind, print, modify, ret, sleep, emit. simpl.
  pose proof (stop_keeps_ptable_length (length (ptable s))
                (set_log (log s ++ [MsgButtonStop]) s) eq_refl) as H.
  by destruct (stop_streaming_recording _) as [[[]|e] s'].
Qed.

Lemma button_while_active_stops_witness :
  recording_active started = true /\
  length (ptable (button_released 100 60000 0 started).2) = length (ptable started).
Proof.
  assert (Hr : recording_active started = true) by (vm_compute; reflexivity).
  assert (Hd : 100 < 500) by reflexivity.
  split; [exact Hr|].
  exact (proj2 (button_while_active_stops started 100 60000 0 Hr Hd)).
Defined.

(** ** C2 *)


(** ** C3 *)

(** C3.  When the MP4 pipe cannot be made, [start_streaming_recording]
    returns [False] through the plain [return] of line 218:
    [stop_streaming_recording] is not run, the camera is still running and
    registered, its pipe is still there and the flag is still up.  When it is
    the launch of ffmpeg that raises, the handler does run
    [stop_streaming_recording] and the camera is stopped, but both pipes
    stay, as no output file is set yet. *)
Theorem failed_start_leaves_camera_running :
  (let s' := (start_streaming_recording session_folder blocked_mp4).2 in
   (start_streaming_recording session_folder blocked_mp4).1 = Ok false /\
   processes s' !! "camera" = Some 0%nat /\
   p_alive <$> ptable s' !! 0%nat = Some true /\
   fs s' !! "/home/pi/assets/rec/video_stream" = Some Fifo /\
   recording_active s' = true /\
   process_events (trace s') = []) /\
  (let s' := (start_streaming_recording session_folder no_ffmpeg).2 in
   (start_streaming_recording session_folder no_ffmpeg).1 = Ok false /\
   processes s' = ∅ /\
   p_alive <$> ptable s' !! 0%nat = Some false /\
   fs s' !! "/home/pi/assets/rec/video_stream" = Some Fifo /\
   fs s' !! "/home/pi/assets/rec/mp4_stream" = Some Fifo /\
   recording_active s' = false).
Proof. vm_compute. repeat split. Qed.

(** ** C4 *)

(** C4.  When the camera pipe cannot be made, [start_streaming_recording]
    returns [False] and nothing was launched, but the flag set in line 197 is
    still up: the recorder was idle before the call and is not after it. *)
Theorem failed_camera_pipe_leaves_flag_up :
  let s' := (start_streaming_recording session_folder blocked_camera).2 in
  recording_active blocked_camera = false /\
  (start_streaming_recording session_folder blocked_camera).1 = Ok false /\
  ptable s' = [] /\
  processes s' = ∅ /\
  recording_active s' = true.
Proof. vm_compute. repeat split. Qed.

(** The same for every state and folder: a failed camera pipe leaves the
    flag up. *)
Lemma failed_camera_pipe_flag folder s :
  (create_named_pipe folder (set_recording_active true s)).1 = Ok None ->
  (start_streaming_recording folder s).1 = Ok false /\
  recording_active (start_streaming_recording folder s).2 = true.
Proof.
  intros H. unfold start_streaming_recording, try_except.
  unfold mbind, M_bind, bind, gets, modify, ret. simpl.
  pose proof (create_named_pipe_core folder (set_recording_active true s)) as Hc.
  destruct (create_named_pipe folder (set_recording_active true s)) as [[[cp|]|e] s1];
    simpl in *; simplify_eq.
  split; [done|]. destruct Hc as [Hc _]. by simplify_eq.
Qed.

(** * The pumps *)

Lemma count_chunk_counted data p :
  counted p -> counted (count_chunk data (write_flush data p)).
Proof.
  unfold counted, count_chunk. intros H.
  case_match; simpl; rewrite H, length_app; lia.
Qed.

Lemma stream_to_pipe_loop_counted script p :
  counted p -> counted (stream_to_pipe_loop script p).2.
Proof.
  revert p. induction script as [|t script IH]; intros p Hp; simpl; [done|].
  destruct (t_active t && t_alive t); [|done].
  destruct (t_read t) as [[|b data]|e]; [by apply IH | | done].
  destruct (t_write_raises t); [done|].
  by apply IH, count_chunk_counted.
Qed.

Lemma copy_mp4_to_output_loop_silent script p :
  said (copy_mp4_to_output_loop script p).2 = said p /\
  bytes_written (copy_mp4_to_output_loop script p).2 = bytes_written p.
Proof.
  revert p. induction script as [|t script IH]; intros p; simpl; [done|].
  destruct (t_active t); [|done].
  destruct (t_read t) as [[|b data]|e]; [done| |done].
  destruct (t_write_raises t); [done|].
  apply (IH (write_flush (b :: data) p)).
Qed.

(** ** C6 *)

(** The camera pump reads nothing on its first turn and does not leave its
    loop: it sleeps once and then moves the three bytes of the second turn.
    The output pump leaves its loop on the empty read with three bytes moved
    and has said nothing. *)
Lemma zero_read_keeps_camera_pump_running :
  stream_to_pipe "/home/pi/assets/rec/video_stream" None stutter =
    (Exited,
     mkPump 3 1 chunk_abc 1
       [PmOpeningPipe "/home/pi/assets/rec/video_stream"; PmPipeOpened;
        PmTotalBytesStreamed 3 1]) /\
  copy_mp4_to_output None
    [mkTick true true (ReadData chunk_abc) None; mkTick true true (ReadData []) None] =
    (Exited, mkPump 0 0 chunk_abc 0 []).
Proof. split; reflexivity. Qed.

(** C6, as the code has it.  The output pump leaves its loop on a
    zero-length read and when the flag is down, and reports no byte count.
    The camera pump leaves its loop when the flag is down or the camera has
    exited, and then reports the bytes it moved; on a zero-length read alone
    it sleeps a millisecond and reads again. *)
Theorem pumps_end (t : tick) (script : list tick) (p : pump) :
  (* the output pump *)
  (t_active t = true -> t_read t = ReadData [] ->
     copy_mp4_to_output_loop (t :: script) p = (Exited, p)) /\
  (t_active t = false -> copy_mp4_to_output_loop (t :: script) p = (Exited, p)) /\
  ((copy_mp4_to_output None script).1 = Exited ->
     said (copy_mp4_to_output None script).2 = [] /\
     bytes_written (copy_mp4_to_output None script).2 = 0) /\
  (* the camera pump *)
  (t_active t = false \/ t_alive t = false ->
     stream_to_pipe_loop (t :: script) p = (Exited, p)) /\
  (t_active t = true -> t_alive t = true -> t_read t = ReadData [] ->
     stream_to_pipe_loop (t :: script) p = stream_to_pipe_loop script (nap p)) /\
  (forall pipe_path,
     (stream_to_pipe pipe_path None script).1 = Exited ->
     let p' := (stream_to_pipe pipe_path None script).2 in
     last (said p') = Some (PmTotalBytesStreamed (bytes_written p') (chunk_count p')) /\
     bytes_written p' = N.of_nat (length (sink p'))).
Proof.
  repeat split.
  - intros Ha Hr. simpl. by rewrite Ha, Hr.
  - intros Ha. simpl. by rewrite Ha.
  - unfold copy_mp4_to_output in *.
    destruct (copy_mp4_to_output_loop_silent script pump0) as [Hs _].
    destruct (copy_mp4_to_output_loop script pump0) as [[| |e] p']; simpl in *; done.
  - unfold copy_mp4_to_output in *.
    destruct (copy_mp4_to_output_loop_silent script pump0) as [_ Hb].
    destruct (copy_mp4_to_output_loop script pump0) as [[| |e] p']; simpl in *; done.
  - intros [Ha|Ha]; simpl; rewrite Ha; [done | by rewrite andb_false_r].
  - intros Ha Hl Hr. simpl. by rewrite Ha, Hl, Hr.
  - unfold stream_to_pipe in *.
    destruct (stream_to_pipe_loop script _) as [[| |e] p']; simpl in *; try done.
    by rewrite last_snoc.
  - unfold stream_to_pipe in *.
    pose proof (stream_to_pipe_loop_counted script
                  (say PmPipeOpened (say (PmOpeningPipe pipe_path) pump0)) eq_refl) as Hc.
    destruct (stream_to_pipe_loop script _) as [[| |e] p']; simpl in *; try done.
Qed.

Lemma pumps_end_witness :
  copy_mp4_to_output_loop [mkTick true true (ReadData []) None] pump0 = (Exited, pump0) /\
  stream_to_pipe_loop stutter pump0 = stream_to_pipe_loop (tail stutter) (nap pump0).
Proof.
  pose proof (pumps_end (mkTick true true (ReadData []) None)) as H.
  split.
  - exact (proj1 (H [] pump0) eq_refl eq_refl).
  - exact (proj1 (proj2 (proj2 (proj2 (proj2 (H (tail stutter) pump0)))))
             eq_refl eq_refl eq_refl).
Defined.

(** * The order and isolation of the stages *)

Ltac prefix_tac :=
  match goal with
  | H : has_prefix _ _ |- has_prefix _ _ =>
      let evs := fresh "evs" in
      destruct H as [evs H]; simpl in *;
      first [ by exists evs
            | eexists; rewrite H, <- app_assoc; reflexivity ]
  end.

Lemma stop_process_keeps_prefix t name : preserves (has_prefix t) (stop_process name).
Proof.
  unfold stop_process, poll_is_None, terminate, has_stdin, stdin_close,
    wait_timeout, kill, wait, the_process, put_process, sleep, emit, print.
  walk; prefix_tac.
Qed.













Ltac unfold_process_calls :=
  unfold terminate, has_stdin, stdin_close, wait_timeout, kill, wait,
    the_process, put_process, sleep, print.


(** Stopping one stage does not touch the process of another handle. *)
Lemma stop_process_frame name pid v s :
  (forall pid', processes s !! name = Some pid' -> pid' <> pid) ->
  ptable s !! pid = v ->
  ptable (stop_process name s).2 !! pid = v.
Proof.
  intros Hd Hv. unfold stop_process.
  unfold mbind at 1, M_bind at 1, bind at 1, gets. simpl.
  destruct (processes s !! name) as [pid'|]; [|done].
  specialize (Hd pid' eq_refl).
  match goal with |- ptable (?c s).2 !! _ = _ =>
    assert (H : preserves (fun s0 => ptable s0 !! pid = v) c);
    [|specialize (H s Hv); by destruct (c s) as [[[]|e] s']]
  end.
  unfold poll_is_None, emit. unfold_process_calls. unfold emit.
  walk; simpl in *; rewrite ?list_lookup_insert_ne by done; done.
Qed.

Lemma stable_processes m : stable (fun s => processes s = m).
Proof. stable_tac. Qed.

Lemma stop_process_step name s :
  exists s', stop_process name s = (Ok tt, s') /\ processes s' = processes s /\
             has_prefix (trace s) s'.
Proof.
  pose proof (safe_stop_process _ (stable_processes (processes s)) name s eq_refl) as H1.
  pose proof (stop_process_keeps_prefix (trace s) name s) as H2.
  destruct (stop_process name s) as [[[]|e] s']; [|done].
  exists s'. repeat split; [done|]. apply H2. exists []. by rewrite app_nil_r.
Qed.




(** ** C7 *)



Example unsignalled_camera_stop :
  drop (length (trace started_unsignalled))
    (trace (stop_streaming_recording started_unsignalled).2) =
  [EvPoll 0; EvTerminate 0; EvPoll 1; EvCloseStdin 1; EvWaitTimeout 1;
   EvRemove "/home/pi/assets/rec/video_stream";
   EvRemove "/home/pi/assets/rec/mp4_stream"; EvLed false] /\
  MsgErrorStopping "camera" PermissionError
    ∈ log (stop_streaming_recording started_unsignalled).2.
Proof. split; [vm_compute; reflexivity|]. vm_compute. set_solver. Qed.

(** * Paths of a session *)

Lemma list_ascii_of_string_app a b :
  list_ascii_of_string (a ++ b) = (list_ascii_of_string a ++ list_ascii_of_string b)%list.
Proof. induction a as [|c a IH]; simpl; [done|]. by rewrite IH. Qed.

Lemma plain_folder_rev folder :
  plain_folder folder ->
  exists c l, rev (list_ascii_of_string folder) = c :: l /\ is_slash c = false.
Proof.
  intros [Hne Hl]. unfold last_is_slash in Hl.
  destruct (rev (list_ascii_of_string folder)) as [|c l] eqn:Hr; [|eauto].
  apply (f_equal (@rev _)) in Hr. rewrite rev_involutive in Hr. simpl in Hr.
  by destruct folder.
Qed.

Lemma path_join_plain folder name :
  plain_folder folder -> first_is_slash name = false ->
  path_join folder name = folder ++ "/" ++ name.
Proof.
  intros [Hne Hl] Hf. unfold path_join. rewrite Hf, Hl.
  apply String.eqb_neq in Hne. by rewrite Hne.
Qed.

Lemma drop_while_app {A} (f : A -> bool) l l' :
  (forall x, In x l -> f x = true) -> drop_while f (l ++ l') = drop_while f l'.
Proof.
  induction l as [|c l IH]; intros H; simpl; [done|].
  rewrite (H c) by (by left). apply IH. intros x Hx. apply H. by right.
Qed.

Lemma drop_while_no_slash l rest :
  forallb (fun c => negb (is_slash c)) l = true ->
  drop_while (fun c => negb (is_slash c)) (rev l ++ slash :: rest) = slash :: rest.
Proof.
  intros H. rewrite drop_while_app; [done|].
  intros x Hx. apply in_rev in Hx. by eapply forallb_forall in H.
Qed.

(** [dirname] undoes [join] on a plain folder and a name without slash. *)
Lemma path_dirname_join folder name :
  plain_folder folder -> no_slash name ->
  path_dirname (folder ++ "/" ++ name) = folder.
Proof.
  intros Hf Hn. destruct (plain_folder_rev folder Hf) as (c & l & Hr & Hc).
  unfold path_dirname. rewrite !list_ascii_of_string_app. simpl.
  rewrite rev_app_distr. simpl. rewrite <- app_assoc. simpl.
  rewrite drop_while_no_slash by exact Hn.
  change (forallb is_slash (slash :: ?x)) with (forallb is_slash x).
  change (drop_while is_slash (slash :: ?x)) with (drop_while is_slash x).
  assert (H1 : forallb is_slash (rev (list_ascii_of_string folder)) = false)
    by (rewrite Hr; simpl; by rewrite Hc).
  assert (H2 : drop_while is_slash (rev (list_ascii_of_string folder))
               = rev (list_ascii_of_string folder))
    by (rewrite Hr; simpl; by rewrite Hc).
  rewrite H1, H2, rev_involutive. apply string_of_list_ascii_of_string.
Qed.

Lemma no_slash_app a b : no_slash a -> no_slash b -> no_slash (a ++ b).
Proof.
  unfold no_slash. intros Ha Hb. rewrite list_ascii_of_string_app, forallb_app.
  by rewrite Ha, Hb.
Qed.

(** The paths of a session in a plain folder: the MP4 pipe lies beside the
    camera pipe, and the folder that [stop_streaming_recording] works out
    from the output file is the folder of the session. *)
Lemma session_paths folder now :
  plain_folder folder -> no_slash now ->
  let out := path_join folder ("recording_" ++ now ++ ".mp4") in
  path_join folder "video_stream" = folder ++ "/video_stream" /\
  path_join (path_dirname (path_join folder "video_stream")) "mp4_stream"
    = folder ++ "/mp4_stream" /\
  out = folder ++ "/recording_" ++ now ++ ".mp4" /\
  path_dirname out = folder /\
  path_join (path_dirname out) "video_stream" = folder ++ "/video_stream" /\
  path_join (path_dirname out) "mp4_stream" = folder ++ "/mp4_stream".
Proof.
  intros Hf Hn. simpl.
  assert (H1 : path_join folder "video_stream" = folder ++ "/video_stream")
    by (by apply path_join_plain).
  assert (H2 : path_join folder "mp4_stream" = folder ++ "/mp4_stream")
    by (by apply path_join_plain).
  assert (H3 : path_join folder ("recording_" ++ now ++ ".mp4")
               = folder ++ "/recording_" ++ now ++ ".mp4")
    by (by apply path_join_plain).
  assert (H4 : path_dirname (folder ++ "/video_stream") = folder)
    by (by apply (path_dirname_join folder "video_stream")).
  assert (H5 : path_dirname (folder ++ "/recording_" ++ now ++ ".mp4") = folder).
  { apply (path_dirname_join folder ("recording_" ++ now ++ ".mp4")); [done|].
    apply (no_slash_app "recording_"); [done|]. by apply no_slash_app. }
  rewrite H1, H3, H4, H5, H1, H2. done.
Qed.

(** * The file system through a session *)

Lemma create_named_pipe_fs folder s :
  match create_named_pipe folder s with
  | (Ok (Some p), s') => fs s' = <[p := Fifo]> (fs s) /\ deny_remove s' = deny_remove s
  | _ => True
  end.
Proof.
  unfold create_named_pipe, try_except, print.
  set (path := path_join folder "video_stream").
  destruct (remove_then_mkfifo_made path s) as [Hm Hs].
  unfold mbind, M_bind, bind, modify, ret.
  destruct (remove_then_mkfifo path s) as [[[]|e] s1]; simpl in *; [|done].
  inversion Hm; subst. split; [done|]. by destruct Hs as (_&_&_&_&_&_&_&->&_).
Qed.

Lemma start_camera_capture_fs pipe_path s :
  match start_camera_capture pipe_path s with
  | (Ok _, s') => fs s' = fs s /\ deny_remove s' = deny_remove s
  | _ => True
  end.
Proof.
  unfold start_camera_capture, Popen, start_thread, emit, print.
  unfold mbind, M_bind, bind, gets, modify, ret, raise. simpl.
  by repeat (case_match; simplify_eq/=).
Qed.

Lemma start_ffmpeg_conversion_fs pipe_path output_path s :
  match start_ffmpeg_conversion pipe_path output_path s with
  | (Ok (Some (_, q)), s') => fs s' = <[q := Fifo]> (fs s) /\ deny_remove s' = deny_remove s
  | _ => True
  end.
Proof.
  unfold start_ffmpeg_conversion, try_except, print.
  set (path := path_join (path_dirname pipe_path) "mp4_stream").
  unfold mbind, M_bind, bind, modify, ret.
  set (s0 := set_log (log s ++ [MsgStartingConversion]) s).
  destruct (remove_then_mkfifo_made path s0) as [Hm Hs].
  destruct (remove_then_mkfifo path s0) as [[[]|e] s1]; simpl in *; [|done].
  unfold Popen, mbind, M_bind, bind, gets, raise, emit, modify, ret. simpl.
  destruct (installed s1 "ffmpeg"); simpl; [|done].
  inversion Hm; subst. split; [done|]. by destruct Hs as (_&_&_&_&_&_&_&->&_).
Qed.

(** A start that returns [True] has put a pipe at each of the two paths
    and changed nothing else in the file system. *)
Lemma start_true_fs folder s :
  (start_streaming_recording folder s).1 = Ok true ->
  let camera_pipe := path_join folder "video_stream" in
  let mp4_pipe := path_join (path_dirname camera_pipe) "mp4_stream" in
  fs (start_streaming_recording folder s).2
    = <[mp4_pipe := Fifo]> (<[camera_pipe := Fifo]> (fs s)) /\
  deny_remove (start_streaming_recording folder s).2 = deny_remove s.
Proof.
  unfold start_streaming_recording, try_except, start_gpg_encryption, set_process,
    start_thread, sleep, emit, print.
  unfold mbind, M_bind, bind, gets, modify, ret. simpl.
  pose proof (create_named_pipe_core folder (set_recording_active true s)) as Hcnp.
  pose proof (create_named_pipe_fs folder (set_recording_active true s)) as Hfs1.
  destruct (create_named_pipe folder (set_recording_active true s))
    as [[[cp|]|e] s1]; simpl; try done.
  destruct Hcnp as [_ [?|?]]; simplify_eq. destruct Hfs1 as [Hfs1 Hd1]. simpl in *.
  pose proof (start_camera_capture_fs (path_join folder "video_stream") s1) as Hfs2.
  destruct (start_camera_capture _ s1) as [[pid|e] s2]; simpl.
  2: { by destruct (stop_streaming_recording _) as [[[]|?] ?]. }
  destruct Hfs2 as [Hfs2 Hd2].
  match goal with |- context [start_ffmpeg_conversion ?a ?b ?st] =>
    pose proof (start_ffmpeg_conversion_core a b st) as Hsfc;
    pose proof (start_ffmpeg_conversion_fs a b st) as Hfs3;
    destruct (start_ffmpeg_conversion a b st) as [[[[ff mp4]|]|e] s3] end; simpl.
  2: done.
  2: { by destruct (stop_streaming_recording _) as [[[]|?] ?]. }
  simpl in *. destruct Hsfc as (_ & -> & _). destruct Hfs3 as [Hfs3 Hd3].
  intros _. split; congruence.
Qed.

Lemma bind_run {A B} (c : M A) (k : A -> M B) s a s' :
  c s = (Ok a, s') -> (c ≫= k) s = k a s'.
Proof. intros H. unfold mbind, M_bind, bind. by rewrite H. Qed.

Lemma bind_raise {A B} (c : M A) (k : A -> M B) s e s' :
  c s = (Raise e, s') -> (c ≫= k) s = (Raise e, s').
Proof. intros H. unfold mbind, M_bind, bind. by rewrite H. Qed.

Ltac calm_tac :=
  first [ by apply calm_log | by apply calm_trace | by apply calm_ptable ].

Lemma safe_stop_process_calm P name : calm P -> safe P (stop_process name).
Proof.
  intros HP.
  unfold stop_process, poll_is_None, terminate, has_stdin, stdin_close,
    wait_timeout, kill, wait, the_process, put_process, sleep, emit, print.
  walk; calm_tac.
Qed.

Lemma calm_files f d o :
  calm (fun s => fs s = f /\ deny_remove s = d /\ output_file s = o).
Proof. constructor; intros; simpl in *; intuition auto. Qed.

(** Up to the removal of the pipes, [stop_streaming_recording] leaves the
    file system and the output path alone, and does not raise. *)
Lemma stop_stages_keep_files s :
  exists s', stop_stages s = (Ok tt, s') /\
    fs s' = fs s /\ deny_remove s' = deny_remove s /\ output_file s' = output_file s.
Proof.
  set (P := fun s' => fs s' = fs s /\ deny_remove s' = deny_remove s /\
                      output_file s' = output_file s).
  assert (H : safe P stop_stages).
  { unfold stop_stages.
    apply safe_bind; [apply safe_modify; intros; by apply (calm_log _ (calm_files _ _ _))|intros _].
    apply safe_bind; [by apply safe_modify|intros _].
    apply safe_bind; [by apply safe_modify|intros _].
    apply safe_for_each. intros. apply safe_stop_process_calm, calm_files. }
  specialize (H s (conj eq_refl (conj eq_refl eq_refl))).
  destruct (stop_stages s) as [[[]|e] s']; [|done]. by exists s'.
Qed.

Lemma stop_in_three s :
  stop_streaming_recording s =
    (stop_stages ≫= fun _ => cleanup_pipes ≫= fun _ => finish) s.
Proof.
  unfold stop_streaming_recording, stop_stages, finish.
  repeat (rewrite bind_assoc; apply bind_ext; intros ? ?).
  reflexivity.
Qed.

Lemma os_remove_removable path s n :
  fs s !! path = Some n -> removable s path ->
  os_remove path s =
    (Ok tt, set_fs (delete path (fs s)) (set_trace (trace s ++ [EvRemove path]) s)).
Proof.
  intros Hn Hr. unfold removable in Hr. rewrite Hn in Hr.
  unfold os_remove, emit.
  unfold mbind, M_bind, bind, gets, modify, raise. simpl. rewrite Hn.
  destruct n; [|..|done]; by rewrite bool_decide_false.
Qed.

(** Lines 306-309 for one pipe, when nothing stands in the way. *)
Lemma remove_if_exists path s :
  removable s path ->
  exists s',
    (ex ← os_path_exists path; if ex : bool then os_remove path else ret tt) s
      = (Ok tt, s') /\
    fs s' = delete path (fs s) /\ deny_remove s' = deny_remove s /\
    log s' = log s /\ output_file s' = output_file s.
Proof.
  intros Hr. unfold os_path_exists. unfold mbind at 1, M_bind, bind, gets.
  destruct (fs s !! path) as [n|] eqn:Hn.
  - rewrite bool_decide_true by eauto. rewrite (os_remove_removable _ _ _ Hn Hr).
    by eexists.
  - rewrite bool_decide_false by apply is_Some_None.
    exists s. repeat split. symmetry. by apply delete_id.
Qed.

Lemma removable_after_delete path path' s s' :
  fs s' = delete path' (fs s) -> deny_remove s' = deny_remove s -> path <> path' ->
  removable s path -> removable s' path.
Proof.
  intros Hf Hd Hne. unfold removable. by rewrite Hf, Hd, lookup_delete_ne.
Qed.

(** The removal of the pipes, when both can be removed. *)
Lemma cleanup_pipes_removes s out :
  output_file s = Some out -> out <> "" -> path_dirname out <> "" ->
  let camera_pipe := path_join (path_dirname out) "video_stream" in
  let mp4_pipe := path_join (path_dirname out) "mp4_stream" in
  camera_pipe <> mp4_pipe ->
  removable s camera_pipe -> removable s mp4_pipe ->
  exists s', cleanup_pipes s = (Ok tt, s') /\
    fs s' = delete mp4_pipe (delete camera_pipe (fs s)) /\
    log s' = log s /\ output_file s' = output_file s.
Proof.
  intros Ho Hne Hd cam mp4 Hdiff Hr1 Hr2.
  unfold cleanup_pipes, try_except. unfold mbind at 1, M_bind at 1, bind at 1, gets.
  simpl. rewrite Ho, (truthy_nonempty _ Hne), (truthy_nonempty _ Hd). simpl.
  fold cam mp4.
  destruct (remove_if_exists cam s Hr1) as (s1 & E1 & Hf1 & Hd1 & Hl1 & Ho1).
  assert (Hr2' : removable s1 mp4) by (by eapply removable_after_delete).
  destruct (remove_if_exists mp4 s1 Hr2') as (s2 & E2 & Hf2 & Hd2 & Hl2 & Ho2).
  rewrite (bind_run _ _ _ _ _ E1), (bind_run _ _ _ _ _ E2). simpl.
  exists s2. repeat split; congruence.
Qed.

Lemma finish_keeps_fs s : fs (finish s).2 = fs s.
Proof.
  unfold finish, check_final_output, os_path_exists, os_path_getsize,
    GPIO_output_LED, emit, print.
  unfold mbind, M_bind, bind, gets, modify, ret, raise. simpl.
  by repeat (case_match; simplify_eq/=).
Qed.

(** [stop_streaming_recording] with both pipes removable: they are gone and
    nothing else in the file system has changed. *)
Lemma stop_removes out s :
  output_file s = Some out -> out <> "" -> path_dirname out <> "" ->
  let camera_pipe := path_join (path_dirname out) "video_stream" in
  let mp4_pipe := path_join (path_dirname out) "mp4_stream" in
  camera_pipe <> mp4_pipe ->
  removable s camera_pipe -> removable s mp4_pipe ->
  fs (stop_streaming_recording s).2 = delete mp4_pipe (delete camera_pipe (fs s)).
Proof.
  intros Ho Hne Hd cam mp4 Hdiff Hr1 Hr2. rewrite stop_in_three.
  destruct (stop_stages_keep_files s) as (s1 & E1 & Hf1 & Hd1 & Ho1).
  rewrite (bind_run _ _ _ _ _ E1).
  assert (Hr1' : removable s1 cam) by (unfold removable in *; by rewrite Hf1, Hd1).
  assert (Hr2' : removable s1 mp4) by (unfold removable in *; by rewrite Hf1, Hd1).
  rewrite Ho in Ho1.
  destruct (cleanup_pipes_removes s1 out Ho1 Hne Hd Hdiff Hr1' Hr2')
    as (s2 & E2 & Hf2 & _).
  rewrite (bind_run _ _ _ _ _ E2), finish_keeps_fs, Hf2, Hf1. done.
Qed.

Lemma string_app_inv_head a b c : a ++ b = a ++ c -> b = c.
Proof. induction a as [|x a IH]; simpl; intros H; [done|]. apply IH. by simplify_eq. Qed.

Lemma pipes_differ folder : folder ++ "/video_stream" <> folder ++ "/mp4_stream".
Proof. by intros H%string_app_inv_head. Qed.

Lemma plain_folder_session : plain_folder session_folder.
Proof. by split. Qed.

(** ** The pipes of a session *)

Lemma start_makes_both_pipes_aux folder s :
  plain_folder folder ->
  (start_streaming_recording folder s).1 = Ok true ->
  fs (start_streaming_recording folder s).2 =
    <[folder ++ "/mp4_stream" := Fifo]> (<[folder ++ "/video_stream" := Fifo]> (fs s)) /\
  output_file (start_streaming_recording folder s).2 =
    Some (folder ++ "/recording_" ++ clock s ++ ".mp4") /\
  deny_remove (start_streaming_recording folder s).2 = deny_remove s.
Proof.
  intros Hf H.
  destruct (session_paths folder "" Hf eq_refl) as (H1 & H2 & _).
  destruct (start_true_fs folder s H) as [Hfs Hd].
  destruct (start_true folder s H) as (_ & _ & Ho & _).
  rewrite Hfs, Ho, H2, H1. split; [done|]. split; [|done].
  by rewrite (path_join_plain folder ("recording_" ++ clock s ++ ".mp4")).
Qed.

(** In a plain folder, a start that returns [True] leaves a named pipe at
    [folder/video_stream] and at [folder/mp4_stream], replacing whatever was
    there, changes nothing else in the file system, and sets the output file
    to [folder/recording_<time>.mp4]. *)
Theorem start_makes_both_pipes (folder : string) (s : state) :
  plain_folder folder ->
  (start_streaming_recording folder s).1 = Ok true ->
  fs (start_streaming_recording folder s).2 =
    <[folder ++ "/mp4_stream" := Fifo]> (<[folder ++ "/video_stream" := Fifo]> (fs s)) /\
  output_file (start_streaming_recording folder s).2 =
    Some (folder ++ "/recording_" ++ clock s ++ ".mp4").
Proof.
  intros Hf H. destruct (start_makes_both_pipes_aux folder s Hf H) as (H1 & H2 & _).
  by split.
Qed.

Lemma start_makes_both_pipes_witness :
  fs started !! "/home/pi/assets/rec/mp4_stream" = Some Fifo /\
  output_file started = Some session_output.
Proof.
  assert (H : (start_streaming_recording session_folder fresh).1 = Ok true)
    by (vm_compute; reflexivity).
  destruct (start_makes_both_pipes session_folder fresh plain_folder_session H)
    as [Hfs Ho].
  split; [|exact Ho]. unfold started. rewrite Hfs. apply lookup_insert_eq.
Defined.

Lemma stop_removes_both_aux folder now s :
  plain_folder folder -> no_slash now ->
  output_file s = Some (path_join folder ("recording_" ++ now ++ ".mp4")) ->
  removable s (folder ++ "/video_stream") ->
  removable s (folder ++ "/mp4_stream") ->
  fs (stop_streaming_recording s).2 =
    delete (folder ++ "/mp4_stream") (delete (folder ++ "/video_stream") (fs s)).
Proof.
  intros Hf Hn Ho Hr1 Hr2.
  destruct (session_paths folder now Hf Hn) as (_ & _ & Hout & Hd & H1 & H2).
  simpl in *.
  rewrite <- H1, <- H2. apply (stop_removes _ s Ho).
  - by apply path_join_nonempty.
  - rewrite Hd. by destruct Hf.
  - rewrite H1, H2. apply pipes_differ.
  - by rewrite H1.
  - by rewrite H2.
Qed.

(** Stopping a session of a plain folder whose two pipes can be removed
    (each is absent, or is no directory and not protected) removes both and
    changes nothing else in the file system. *)
Theorem stop_removes_both_pipes (folder now : string) (s : state) :
  plain_folder folder -> no_slash now ->
  output_file s = Some (path_join folder ("recording_" ++ now ++ ".mp4")) ->
  removable s (folder ++ "/video_stream") ->
  removable s (folder ++ "/mp4_stream") ->
  fs (stop_streaming_recording s).2 =
    delete (folder ++ "/mp4_stream") (delete (folder ++ "/video_stream") (fs s)).
Proof. apply stop_removes_both_aux. Qed.

Lemma stop_removes_both_pipes_witness :
  fs (stop_streaming_recording recorded).2 =
    {[ "/home/pi/assets/rec" := Dir; session_output := RegFile 1048576 ]}.
Proof.
  assert (Hn : no_slash "2025-01-01_10H-00M-00S") by reflexivity.
  assert (Ho : output_file recorded = Some (path_join session_folder
                 ("recording_" ++ "2025-01-01_10H-00M-00S" ++ ".mp4")))
    by (vm_compute; reflexivity).
  assert (Hr1 : removable recorded (session_folder ++ "/video_stream"))
    by (vm_compute; set_solver).
  assert (Hr2 : removable recorded (session_folder ++ "/mp4_stream"))
    by (vm_compute; set_solver).
  rewrite (stop_removes_both_pipes session_folder _ recorded
             plain_folder_session Hn Ho Hr1 Hr2).
  apply map_eq. intros k. vm_compute. reflexivity.
Defined.



Lemma os_remove_refused path s :
  ~ removable s path ->
  is_Some (fs s !! path) /\
  exists e, os_remove path s = (Raise e, set_trace (trace s ++ [EvRemove path]) s).
Proof.
  intros Hr. unfold removable in Hr. unfold os_remove, emit.
  unfold mbind, M_bind, bind, gets, modify, raise. simpl.
  destruct (fs s !! path) as [[]|]; [| | |by destruct Hr]; (split; [by eauto|]).
  - case_bool_decide; [by eauto|done].
  - case_bool_decide; [by eauto|done].
  - by eauto.
Qed.

Lemma finish_keeps_line m : preserves (fun s => m ∈ log s) finish.
Proof.
  unfold finish, check_final_output, os_path_exists, os_path_getsize,
    GPIO_output_LED, emit, print.
  walk; simpl in *; set_solver.
Qed.

(** The removal of the pipes is one [try] around both: when the camera pipe
    cannot be removed (a directory sits there, or it is protected), the MP4
    pipe is not tried.  [stop_streaming_recording] then leaves the whole file
    system as it was and prints the error. *)
Theorem cleanup_gives_up_at_first_failure (out : string) (s : state) :
  output_file s = Some out -> out <> "" -> path_dirname out <> "" ->
  ~ removable s (path_join (path_dirname out) "video_stream") ->
  (stop_streaming_recording s).1 = Ok tt /\
  fs (stop_streaming_recording s).2 = fs s /\
  exists e, MsgErrorCleaningPipes e ∈ log (stop_streaming_recording s).2.
Proof.
  intros Ho Hne Hd Hr. split; [apply stop_returns|]. rewrite stop_in_three.
  destruct (stop_stages_keep_files s) as (s1 & E1 & Hf1 & Hd1 & Ho1).
  rewrite (bind_run _ _ _ _ _ E1). rewrite Ho in Ho1.
  set (cam := path_join (path_dirname out) "video_stream") in *.
  assert (Hr1 : ~ removable s1 cam) by (unfold removable in *; by rewrite Hf1, Hd1).
  destruct (os_remove_refused cam s1 Hr1) as (Hex & e & Erm).
  assert (Ec : cleanup_pipes s1 =
    (Ok tt, set_log (log s1 ++ [MsgErrorCleaningPipes e])
              (set_trace (trace s1 ++ [EvRemove cam]) s1))).
  { assert (E0 : (ex ← os_path_exists cam;
                   if ex : bool then os_remove cam else ret tt) s1
                  = (Raise e, set_trace (trace s1 ++ [EvRemove cam]) s1)).
    { unfold os_path_exists. unfold mbind, M_bind, bind, gets.
      rewrite bool_decide_true by done. by rewrite Erm. }
    unfold cleanup_pipes, try_except.
    unfold mbind at 1, M_bind at 1, bind at 1, gets. simpl.
    rewrite Ho1, (truthy_nonempty _ Hne), (truthy_nonempty _ Hd). simpl. fold cam.
    by rewrite (bind_raise _ _ _ _ _ E0). }
  rewrite (bind_run _ _ _ _ _ Ec), finish_keeps_fs. split; [done|].
  exists e.
  pose proof (finish_keeps_line (MsgErrorCleaningPipes e)
                (set_log (log s1 ++ [MsgErrorCleaningPipes e])
                   (set_trace (trace s1 ++ [EvRemove cam]) s1))) as H.
  destruct (finish _) as [[[]|e'] s3]; apply H; simpl; set_solver.
Qed.

Lemma cleanup_gives_up_at_first_failure_witness :
  fs (stop_streaming_recording pinned_camera_pipe).2
    !! "/home/pi/assets/rec/mp4_stream" = Some Fifo.
Proof.
  assert (Ho : output_file pinned_camera_pipe = Some session_output)
    by (vm_compute; reflexivity).
  assert (Hne : session_output <> "") by discriminate.
  assert (Hd : path_dirname session_output <> "") by (vm_compute; discriminate).
  assert (Hr : ~ removable pinned_camera_pipe
                   (path_join (path_dirname session_output) "video_stream")).
  { vm_compute. intros H. apply H. set_solver. }
  rewrite (proj1 (proj2 (cleanup_gives_up_at_first_failure session_output
                           pinned_camera_pipe Ho Hne Hd Hr))).
  vm_compute. reflexivity.
Defined.

(** * What a stop leaves of the stages *)

Lemma stop_process_ends name pid p s :
  name ∈ ["camera"; "ffmpeg"; "gpg"] ->
  processes s !! name = Some pid ->
  ptable s !! pid = Some p ->
  (name = "camera" -> b_terminate_raises p = false) ->
  b_kill_raises p = false ->
  exists q, ptable (stop_process name s).2 !! pid = Some q /\ p_alive q = false.
Proof.
  intros Hn Hp Hq Ht Hk.
  assert (Hlt : (pid < length (ptable s))%nat) by (by eapply lookup_lt_Some).
  unfold stop_process, poll_is_None, terminate, has_stdin, stdin_close,
    wait_timeout, kill, wait, the_process, put_process, sleep, emit, print, try_except.
  unfold mbind, M_bind, bind, gets, modify, ret, raise. simpl. rewrite Hp. simpl.
  rewrite Hq. simpl.
  destruct p as [cmd alive hasin closed tr cr grace kr]. simpl in *. subst kr.
  destruct alive; [|by eauto].
  assert (Htr : name = "camera" -> tr = false) by done. clear Ht.
  repeat (apply elem_of_cons in Hn as [->|Hn]); [| | |by apply elem_of_nil in Hn]; simpl.
  - rewrite Hq. simpl. rewrite Htr by done. simpl.
    destruct grace; simpl;
      repeat (first [ rewrite Hq
                    | rewrite list_lookup_insert_eq by (rewrite ?length_insert; done) ];
              simpl);
      by eauto.
  - rewrite Hq. simpl.
    destruct hasin, cr, grace; simpl;
      repeat (first [ rewrite Hq
                    | rewrite list_lookup_insert_eq by (rewrite ?length_insert; done) ];
              simpl);
      by eauto.
  - rewrite Hq. simpl.
    destruct hasin, cr, grace; simpl;
      repeat (first [ rewrite Hq
                    | rewrite list_lookup_insert_eq by (rewrite ?length_insert; done) ];
              simpl);
      by eauto.
Qed.

Lemma for_each_stop_process_frame names pid v s :
  (forall n pid', n ∈ names -> processes s !! n = Some pid' -> pid' <> pid) ->
  ptable s !! pid = v ->
  exists s', for_each names stop_process s = (Ok tt, s') /\
             processes s' = processes s /\ ptable s' !! pid = v.
Proof.
  revert s. induction names as [|n names IH]; intros s Hd Hv; simpl.
  - by exists s.
  - destruct (stop_process_step n s) as (s1 & E1 & Hp1 & _).
    assert (Hv1 : ptable s1 !! pid = v).
    { replace s1 with (stop_process n s).2 by (by rewrite E1).
      apply stop_process_frame; [|done]. intros pid'. apply Hd. by left. }
    destruct (IH s1) as (s2 & E2 & Hp2 & Hv2); [|done|].
    { intros n' pid' Hin. rewrite Hp1. apply Hd. by right. }
    exists s2. rewrite (bind_run _ _ _ _ _ E1), E2. repeat split; congruence.
Qed.

Lemma for_each_ends names name pid p s :
  NoDup names -> name ∈ names -> name ∈ ["camera"; "ffmpeg"; "gpg"] ->
  processes s !! name = Some pid -> ptable s !! pid = Some p ->
  own_handle s name pid ->
  (name = "camera" -> b_terminate_raises p = false) ->
  b_kill_raises p = false ->
  exists s' q, for_each names stop_process s = (Ok tt, s') /\
               ptable s' !! pid = Some q /\ p_alive q = false.
Proof.
  intros Hnd. revert s. induction Hnd as [|n names Hnotin Hnd IH];
    intros s Hin H3 Hp Hq Hown Ht Hk; [by apply elem_of_nil in Hin|].
  simpl. destruct (stop_process_step n s) as (s1 & E1 & Hp1 & _).
  rewrite (bind_run _ _ _ _ _ E1).
  destruct (decide (name = n)) as [->|Hne].
  - destruct (stop_process_ends n pid p s H3 Hp Hq Ht Hk) as (q & Hq1 & Hd).
    rewrite E1 in Hq1. simpl in Hq1.
    destruct (for_each_stop_process_frame names pid (Some q) s1) as (s2 & E2 & _ & Hv2);
      [|done|by eauto].
    intros n' pid' Hin' Hl. apply (Hown n'); [|by rewrite <- Hp1].
    intros ->. by apply Hnotin.
  - apply elem_of_cons in Hin as [?|Hin]; [done|].
    assert (Hq1 : ptable s1 !! pid = Some p).
    { replace s1 with (stop_process n s).2 by (by rewrite E1).
      apply stop_process_frame; [|done]. intros pid' Hl. by apply (Hown n). }
    apply IH; try done; [by rewrite Hp1|].
    intros n' pid' ? Hl. apply (Hown n'); [done|]. by rewrite <- Hp1.
Qed.

Lemma cleanup_finish_keep_process pid v :
  preserves (fun s => ptable s !! pid = v) (cleanup_pipes ≫= fun _ => finish).
Proof.
  unfold cleanup_pipes, finish, check_final_output, os_path_exists, os_remove,
    os_path_getsize, GPIO_output_LED, emit, print.
  walk; done.
Qed.

(** ** No stage is left running *)

(** After [stop_streaming_recording], a stage registered under one of the
    three names, with a handle of its own, is not running any more, provided
    the signal it is sent does not raise: [terminate()] for the camera, and
    [kill()] for any stage that outlives the five seconds of grace.  Whether
    it exits in time, whether closing its input raises, and what the other
    stages do, does not matter. *)
Theorem stop_ends_every_stage (s : state) (name : string) (pid : nat) (p : process) :
  name ∈ ["camera"; "ffmpeg"; "gpg"] ->
  processes s !! name = Some pid ->
  ptable s !! pid = Some p ->
  own_handle s name pid ->
  (name = "camera" -> b_terminate_raises p = false) ->
  b_kill_raises p = false ->
  exists q, ptable (stop_streaming_recording s).2 !! pid = Some q /\ p_alive q = false.
Proof.
  intros Hn Hp Hq Hown Ht Hk. rewrite stop_in_three.
  set (s0 := set_ENCRYPTION_ACTIVE false
               (set_recording_active false (set_log (log s ++ [MsgStoppingPipeline]) s))).
  assert (Hnd : NoDup ["camera"; "ffmpeg"; "gpg"]).
  { repeat constructor; set_solver. }
  destruct (for_each_ends _ name pid p s0 Hnd Hn Hn Hp Hq Hown Ht Hk)
    as (s1 & q & E1 & Hq1 & Hd).
  assert (Es : stop_stages s = (Ok tt, s1)) by exact E1.
  rewrite (bind_run _ _ _ _ _ Es).
  pose proof (cleanup_finish_keep_process pid (Some q) s1 Hq1) as H.
  exists q. split; [|done].
  by destruct ((cleanup_pipes ≫= fun _ => finish) s1) as [[[]|e] s2].
Qed.

Lemma stop_ends_every_stage_witness :
  exists q, ptable (stop_streaming_recording started).2 !! 1%nat = Some q /\
            p_alive q = false.
Proof.
  assert (Hn : "ffmpeg" ∈ ["camera"; "ffmpeg"; "gpg"]) by set_solver.
  assert (Hp : processes started !! "ffmpeg" = Some 1%nat) by (vm_compute; reflexivity).
  assert (Hq : ptable started !! 1%nat
               = Some (mkProcess "ffmpeg" true true false false false true false))
    by (vm_compute; reflexivity).
  refine (stop_ends_every_stage started "ffmpeg" 1 _ Hn Hp Hq _ _ eq_refl).
  - intros name' pid' Hne Hl.
    assert (Hc : processes started = <["ffmpeg" := 1%nat]> (<["camera" := 0%nat]> ∅)).
    { apply (start_true session_folder fresh). vm_compute. reflexivity. }
    rewrite Hc in Hl. rewrite lookup_insert_ne in Hl by done.
    apply lookup_insert_Some in Hl as [[_ <-]|[_ Hl]]; [done|].
    by rewrite lookup_empty in Hl.
  - discriminate.
Defined.

(** * How a start can end *)

Lemma create_named_pipe_none folder s :
  match create_named_pipe folder s with
  | (Ok None, s') =>
      recording_active s' = recording_active s /\ output_file s' = output_file s /\
      ENCRYPTION_ACTIVE s' = ENCRYPTION_ACTIVE s /\ ptable s' = ptable s /\
      exists e, last (log s') = Some (MsgErrorCreatingNamedPipe e)
  | _ => True
  end.
Proof.
  unfold create_named_pipe, remove_then_mkfifo, os_path_exists, os_remove, os_mkfifo,
    emit, print, try_except.
  unfold mbind, M_bind, bind, gets, modify, ret, raise. simpl.
  repeat (case_match; simplify_eq/=; try done);
    repeat split; eexists; by rewrite last_snoc.
Qed.

Lemma start_ffmpeg_conversion_none pipe_path output_path s :
  match start_ffmpeg_conversion pipe_path output_path s with
  | (Ok None, s') =>
      recording_active s' = recording_active s /\ output_file s' = output_file s /\
      ENCRYPTION_ACTIVE s' = ENCRYPTION_ACTIVE s /\ ptable s' = ptable s /\
      exists e, last (log s') = Some (MsgErrorCreatingMp4Pipe e)
  | _ => True
  end.
Proof.
  unfold start_ffmpeg_conversion, remove_then_mkfifo, os_path_exists, os_remove,
    os_mkfifo, Popen, emit, print, try_except.
  unfold mbind, M_bind, bind, gets, modify, ret, raise. simpl.
  repeat (case_match; simplify_eq/=; try done);
    repeat split; eexists; by rewrite last_snoc.
Qed.

Lemma stop_keeps_line m : preserves (fun s => m ∈ log s) stop_streaming_recording.
Proof.
  unfold stop_streaming_recording, stop_process, cleanup_pipes, check_final_output,
    GPIO_output_LED, poll_is_None, terminate, has_stdin, stdin_close, wait_timeout,
    kill, wait, the_process, put_process, os_path_exists, os_remove, os_path_getsize,
    sleep, emit, print.
  walk; simpl in *; set_solver.
Qed.

(** The handler of lines 257-260. *)
Lemma start_handler_unwinds e s :
  exists s', (print (MsgErrorStartingPipeline e);;
              stop_streaming_recording;;
              ret false) s = (Ok false, s') /\
    idle s' /\ status s' = (false, false) /\ MsgErrorStartingPipeline e ∈ log s'.
Proof.
  unfold print. unfold mbind at 1, M_bind at 1, bind at 1, modify.
  set (s0 := set_log (log s ++ [MsgErrorStartingPipeline e]) s).
  pose proof (stop_returns s0) as Hr. pose proof (stop_leaves_idle s0) as [Hi Hs].
  assert (Hl : MsgErrorStartingPipeline e ∈ log s0) by (simpl; set_solver).
  pose proof (stop_keeps_line _ s0 Hl) as Hk.
  unfold mbind, M_bind, bind, ret.
  destruct (stop_streaming_recording s0) as [[[]|e'] s1]; simpl in *; [|done].
  by exists s1.
Qed.

(** ** The three ends of a start *)

Lemma start_outcome folder s :
  exists b s', start_streaming_recording folder s = (Ok b, s') /\
    ((b = true /\ recording_active s' = true /\ ENCRYPTION_ACTIVE s' = true /\
      output_file s' = Some (path_join folder ("recording_" ++ clock s ++ ".mp4")))
     \/ (b = false /\ recording_active s' = true /\
         output_file s' = output_file s /\
         ENCRYPTION_ACTIVE s' = ENCRYPTION_ACTIVE s /\
         exists e, last (log s') = Some (MsgErrorCreatingNamedPipe e) \/
                   last (log s') = Some (MsgErrorCreatingMp4Pipe e))
     \/ (b = false /\ idle s' /\ status s' = (false, false) /\
         exists e, MsgErrorStartingPipeline e ∈ log s')).
Proof.
  unfold start_streaming_recording, try_except, start_gpg_encryption, set_process,
    start_thread, sleep, emit.
  unfold mbind, M_bind, bind, gets, modify, ret. simpl.
  set (s0 := set_recording_active true s).
  pose proof (create_named_pipe_core folder s0) as Hc1.
  pose proof (create_named_pipe_none folder s0) as Hn1.
  destruct (create_named_pipe folder s0) as [[[cp|]|e] s1]; [| |done].
  2: { destruct Hn1 as (Hr & Ho & He & _ & e & Hl).
       eexists _, _. split; [reflexivity|]. right; left.
       repeat split; [done..|]. exists e. by left. }
  destruct Hc1 as [Hc1 _]. simplify_eq. clear Hn1.
  pose proof (start_camera_capture_core cp s1) as Hc2.
  destruct (start_camera_capture cp s1) as [[pid|e] s2].
  2: { destruct (start_handler_unwinds e s2) as (s' & E & Hi & Hs & Hl).
       unfold print, mbind, M_bind, bind, modify, ret in E. rewrite E.
       eexists _, _. split; [reflexivity|]. right; right. eauto. }
  destruct Hc2 as (-> & _ & _ & Hr2 & _ & Ho2 & He2 & Hcl2). simpl.
  match goal with |- context [start_ffmpeg_conversion ?a ?b ?st] =>
    pose proof (start_ffmpeg_conversion_core a b st) as Hc3;
    pose proof (start_ffmpeg_conversion_none a b st) as Hn3;
    destruct (start_ffmpeg_conversion a b st) as [[[[ff mp4]|]|e] s3] end.
  - simpl in *. destruct Hc3 as (_ & _ & _ & _ & Hr3 & _).
    eexists _, _. split; [reflexivity|]. left. simpl. repeat split; congruence.
  - simpl in *. destruct Hn3 as (Hr & Ho & He & _ & e & Hl).
    eexists _, _. split; [reflexivity|]. right; left. simpl in *.
    repeat split; [congruence..|]. exists e. by right.
  - destruct (start_handler_unwinds e s3) as (s' & E & Hi & Hs & Hl).
    unfold print, mbind, M_bind, bind, modify, ret in E. rewrite E.
    eexists _, _. split; [reflexivity|]. right; right. eauto. 
Qed.

(** [start_streaming_recording] never raises, and ends in one of three ways.
    It returns [True] with the flags up and the output file set.  Or a
    channel could not be made: it returns [False] at once, the last line
    printed is that error, the flag it raised on entry is still up and
    nothing is unwound.  Or a launch raised: it prints the error, runs
    [stop_streaming_recording] and returns [False] with the recorder idle. *)
Theorem start_ends_three_ways (folder : string) (s : state) :
  let r := start_streaming_recording folder s in
  (r.1 = Ok true /\ recording_active r.2 = true /\ ENCRYPTION_ACTIVE r.2 = true /\
   output_file r.2 = Some (path_join folder ("recording_" ++ clock s ++ ".mp4")))
  \/ (r.1 = Ok false /\ recording_active r.2 = true /\
      output_file r.2 = output_file s /\
      ENCRYPTION_ACTIVE r.2 = ENCRYPTION_ACTIVE s /\
      exists e, last (log r.2) = Some (MsgErrorCreatingNamedPipe e) \/
                last (log r.2) = Some (MsgErrorCreatingMp4Pipe e))
  \/ (r.1 = Ok false /\ idle r.2 /\ status r.2 = (false, false) /\
      exists e, MsgErrorStartingPipeline e ∈ log r.2).
Proof.
  simpl. destruct (start_outcome folder s) as (b & s' & -> & [H|[H|H]]); simpl;
    [left|right; left|right; right]; destruct H as [-> H]; by split.
Qed.

Example start_unwinds_without_ffmpeg :
  (start_streaming_recording session_folder no_ffmpeg).1 = Ok false /\
  idle (start_streaming_recording session_folder no_ffmpeg).2.
Proof. vm_compute. repeat split. Qed.

(** ** What a start that succeeds has set up *)

(** A start that returns [True] has launched exactly two processes, the
    camera and then ffmpeg, registered them under ["camera"] and ["ffmpeg"]
    (over whatever was registered there), and started three threads, in this
    order: the camera pump on the camera pipe, the copy from the MP4 pipe to
    the output file, and the LED blinker. *)
Theorem start_registers_two_stages (folder : string) (s : state) :
  (start_streaming_recording folder s).1 = Ok true ->
  let s' := (start_streaming_recording folder s).2 in
  let camera := length (ptable s) in
  processes s' = <["ffmpeg" := S camera]> (<["camera" := camera]> (processes s)) /\
  length (ptable s') = S (S camera) /\
  threads s' =
    (threads s ++
     [ThStreamToPipe camera (path_join folder "video_stream");
      ThCopyMp4ToOutput
        (path_join (path_dirname (path_join folder "video_stream")) "mp4_stream")
        (path_join folder ("recording_" ++ clock s ++ ".mp4"));
      ThBlinkLedRecording])%list.
Proof.
  intros H. destruct (start_true folder s H) as (_ & _ & _ & Hp & Hl & Ht). by simpl.
Qed.

Lemma start_registers_two_stages_witness :
  processes started = {[ "camera" := 0%nat; "ffmpeg" := 1%nat ]} /\
  length (ptable started) = 2%nat.
Proof.
  assert (H : (start_streaming_recording session_folder fresh).1 = Ok true)
    by (vm_compute; reflexivity).
  destruct (start_registers_two_stages session_folder fresh H) as (Hp & Hl & _).
  split; [|exact Hl]. unfold started. rewrite Hp.
  apply map_eq. intros k. vm_compute. reflexivity.
Defined.

(** * What a stop never does *)

Lemma stop_shrinks s :
  preserves (fun s' => fs s' ⊆ fs s /\ length (ptable s') = length (ptable s) /\
                       threads s' = threads s) stop_streaming_recording.
Proof.
  unfold stop_streaming_recording, stop_process, cleanup_pipes, check_final_output,
    GPIO_output_LED, poll_is_None, terminate, has_stdin, stdin_close, wait_timeout,
    kill, wait, the_process, put_process, os_path_exists, os_remove, os_path_getsize,
    sleep, emit, print.
  walk; simpl in *; rewrite ?length_insert; try done.
  all: destruct_and!; split_and!; try done.
  all: etrans; [apply delete_subseteq|done].
Qed.

(** [stop_streaming_recording] only takes away: whatever the state, it
    creates nothing in the file system, launches no process and starts no
    thread. *)
Theorem stop_only_takes_away (s : state) :
  fs (stop_streaming_recording s).2 ⊆ fs s /\
  length (ptable (stop_streaming_recording s).2) = length (ptable s) /\
  threads (stop_streaming_recording s).2 = threads s.
Proof.
  pose proof (stop_shrinks s s (conj (reflexivity _) (conj eq_refl eq_refl))) as H.
  by destruct (stop_streaming_recording s) as [[[]|e] s'].
Qed.

(** * What the pumps move *)

Lemma copy_loop_good chunks script p :
  Forall (fun d => d <> []) chunks ->
  copy_mp4_to_output_loop (map good_tick chunks ++ script) p =
    copy_mp4_to_output_loop script
      (mkPump (bytes_written p) (chunk_count p) (sink p ++ concat chunks) (naps p) (said p)).
Proof.
  intros H. revert p. induction H as [|d chunks Hd _ IH]; intros p; simpl.
  - rewrite app_nil_r. by destruct p.
  - destruct d as [|b d]; [done|]. rewrite IH. unfold write_flush. simpl.
    by rewrite <- app_assoc.
Qed.

(** The pass-through copy loses and repeats nothing: fed any number of
    non-empty chunks and then an empty read (or the flag going down), the
    output file holds exactly the chunks, in order, and the pump has left its
    loop without a word. *)
Theorem copy_passes_every_chunk (chunks : list (list byte)) (t : tick) (rest : list tick) :
  Forall (fun d => d <> []) chunks ->
  t_active t = false \/ t_read t = ReadData [] ->
  copy_mp4_to_output None (map good_tick chunks ++ t :: rest) =
    (Exited, mkPump 0 0 (concat chunks) 0 []).
Proof.
  intros Hc Ht. unfold copy_mp4_to_output. rewrite copy_loop_good by done. simpl.
  destruct Ht as [Ht|Ht]; rewrite Ht; [done|]. by destruct (t_active t).
Qed.

Lemma copy_passes_every_chunk_witness :
  copy_mp4_to_output None
    (map good_tick [chunk_abc; chunk_abc] ++ [mkTick true true (ReadData []) None]) =
  (Exited, mkPump 0 0 (chunk_abc ++ chunk_abc) 0 []).
Proof.
  assert (Hc : Forall (fun d : list byte => d <> []) [chunk_abc; chunk_abc])
    by (repeat constructor; discriminate).
  exact (copy_passes_every_chunk [chunk_abc; chunk_abc]
           (mkTick true true (ReadData []) None) [] Hc (or_intror eq_refl)).
Defined.

Lemma stream_loop_good reads script p :
  let p' := (stream_to_pipe_loop (map good_tick reads ++ script) p) in
  exists q, p' = stream_to_pipe_loop script q /\
    sink q = (sink p ++ concat reads)%list /\
    bytes_written q = bytes_written p + N.of_nat (length (concat reads)) /\
    chunk_count q = chunk_count p + N.of_nat (length (List.filter nonempty reads)) /\
    naps q = (naps p + length (List.filter (fun d => negb (nonempty d)) reads))%nat.
Proof.
  simpl. revert p. induction reads as [|d reads IH]; intros p; simpl.
  - exists p. rewrite app_nil_r. repeat split; lia.
  - destruct d as [|b d]; simpl.
    + destruct (IH (nap p)) as (q & -> & Hs & Hb & Hc & Hn). exists q.
      simpl in *. repeat split; try done. lia.
    + destruct (IH (count_chunk (b :: d) (write_flush (b :: d) p)))
        as (q & -> & Hs & Hb & Hc & Hn).
      exists q. split; [done|]. unfold count_chunk, write_flush in *.
      destruct (_ =? 0); simpl in *; rewrite Hs, Hb, Hc, Hn, ?length_app;
        rewrite <- ?app_assoc; simpl; repeat split; lia.
Qed.

(** The camera pump: fed any reads, empty ones among them, until the flag
    goes down or the camera exits, it has written all the data in order, its
    byte count is the number of bytes written, its chunk count the number of
    non-empty reads, and it slept once for each empty read. *)
Theorem camera_pump_counts_every_chunk
    (pipe_path : string) (reads : list (list byte)) (t : tick) (rest : list tick) :
  t_active t = false \/ t_alive t = false ->
  let r := stream_to_pipe pipe_path None (map good_tick reads ++ t :: rest) in
  r.1 = Exited /\
  sink r.2 = concat reads /\
  bytes_written r.2 = N.of_nat (length (concat reads)) /\
  chunk_count r.2 = N.of_nat (length (List.filter nonempty reads)) /\
  naps r.2 = length (List.filter (fun d => negb (nonempty d)) reads).
Proof.
  intros Ht. simpl. unfold stream_to_pipe.
  destruct (stream_loop_good reads (t :: rest)
              (say PmPipeOpened (say (PmOpeningPipe pipe_path) pump0)))
    as (q & -> & Hs & Hb & Hc & Hn).
  simpl. replace (t_active t && t_alive t)%bool with false
    by (destruct Ht as [->| ->]; by rewrite ?andb_false_r).
  simpl in *. repeat split; try done; lia.
Qed.

Lemma camera_pump_counts_every_chunk_witness :
  bytes_written (stream_to_pipe "/home/pi/assets/rec/video_stream" None stutter).2 = 3 /\
  naps (stream_to_pipe "/home/pi/assets/rec/video_stream" None stutter).2 = 1%nat.
Proof.
  pose proof (camera_pump_counts_every_chunk "/home/pi/assets/rec/video_stream"
                [[]; chunk_abc] (mkTick true false (ReadData []) None) []
                (or_intror eq_refl)) as (_ & _ & Hb & _ & Hn).
  split; [exact Hb | exact Hn].
Defined.

(** ** What a pump says *)




Lemma progress_lines_say m l :
  progress_lines (l ++ [m]) =
    (progress_lines l + match m with PmStreamed _ _ => 1 | _ => 0 end)%nat.
Proof.
  unfold progress_lines. rewrite List.filter_app, length_app. by destruct m.
Qed.

Lemma count_chunk_progress data p :
  N.of_nat (progress_lines (said p)) = chunk_count p / 100 ->
  N.of_nat (progress_lines (said (count_chunk data (write_flush data p)))) =
    chunk_count (count_chunk data (write_flush data p)) / 100.
Proof.
  unfold count_chunk, write_flush. cbn [chunk_count bytes_written sink naps said]. intros H.
  pose proof (N.div_mod' (chunk_count p) 100) as H0.
  pose proof (N.mod_upper_bound (chunk_count p) 100 ltac:(done)) as H1.
  pose proof (N.div_mod' (chunk_count p + 1) 100) as H2.
  pose proof (N.mod_upper_bound (chunk_count p + 1) 100 ltac:(done)) as H3.
  destruct (_ =? 0) eqn:E; cbn [chunk_count said say].
  - apply N.eqb_eq in E. rewrite progress_lines_say.
    generalize dependent (chunk_count p / 100). generalize dependent (chunk_count p mod 100).
    generalize dependent ((chunk_count p + 1) / 100).
    generalize dependent ((chunk_count p + 1) mod 100). intros. lia.
  - apply N.eqb_neq in E.
    generalize dependent (chunk_count p / 100). generalize dependent (chunk_count p mod 100).
    generalize dependent ((chunk_count p + 1) / 100).
    generalize dependent ((chunk_count p + 1) mod 100). intros. lia.
Qed.

Lemma stream_to_pipe_loop_progress script p :
  N.of_nat (progress_lines (said p)) = chunk_count p / 100 ->
  N.of_nat (progress_lines (said (stream_to_pipe_loop script p).2)) =
    chunk_count (stream_to_pipe_loop script p).2 / 100.
Proof.
  revert p. induction script as [|t script IH]; intros p Hp; simpl; [done|].
  destruct (t_active t && t_alive t); [|done].
  destruct (t_read t) as [[|b data]|e]; [by apply IH | | done].
  destruct (t_write_raises t); [done|].
  by apply IH, count_chunk_progress.
Qed.

(** The camera pump prints one progress line for every full hundred chunks
    it has written, whatever it is fed and however it ends. *)
Theorem camera_pump_progress_every_100_chunks
    (pipe_path : string) (open_raises : option exn) (script : list tick) :
  let p := (stream_to_pipe pipe_path open_raises script).2 in
  N.of_nat (progress_lines (said p)) = chunk_count p / 100.
Proof.
  simpl. unfold stream_to_pipe. destruct open_raises as [e|]; [done|].
  pose proof (stream_to_pipe_loop_progress script
                (say PmPipeOpened (say (PmOpeningPipe pipe_path) pump0)) eq_refl) as H.
  destruct (stream_to_pipe_loop script _) as [[| |e] p']; simpl in *; try done.
  all: by rewrite !progress_lines_say, !Nat.add_0_r.
Qed.

(** * The button *)





Lemma create_recording_folder_raise s e s' :
  create_recording_folder s = (Raise e, s') ->
  fs s' = fs s /\ core s' = core s /\ log s' = log s /\
  trace s' =
    (trace s ++ [EvMakedirs (path_join (assets_dir s) ("recording_" ++ clock s))])%list.
Proof.
  unfold create_recording_folder, os_makedirs, emit, print.
  unfold mbind, M_bind, bind, gets, modify, ret, raise. simpl.
  repeat (case_match; simplify_eq/=; try done); intros; by simplify_eq/=.
Qed.

Lemma create_recording_folder_raises s :
  let folder := path_join (assets_dir s) ("recording_" ++ clock s) in
  (exists n, fs s !! folder = Some n /\ n <> Dir) \/
  (fs s !! folder = None /\ folder ∈ deny_create s) ->
  exists e s', create_recording_folder s = (Raise e, s').
Proof.
  unfold create_recording_folder, os_makedirs, emit, print.
  unfold mbind, M_bind, bind, gets, modify, ret, raise. simpl.
  intros [(n & -> & Hn)|[-> Hd]].
  - destruct n; by eauto.
  - rewrite bool_decide_eq_true_2 by done. by eauto.
Qed.

(** ** The folder of a session *)



(** ** One release of the button *)

Lemma stop_after_print m s :
  exists s', stop_streaming_recording (set_log (log s ++ [m]) s) = (Ok tt, s') /\
    length (ptable s') = length (ptable s) /\ threads s' = threads s.
Proof.
  set (s0 := set_log (log s ++ [m]) s).
  pose proof (stop_returns s0) as Hr.
  pose proof (stop_shrinks s0 s0 (conj (reflexivity _) (conj eq_refl eq_refl))) as Hs.
  destruct (stop_streaming_recording s0) as [[[]|e] s1]; simpl in *; [|done].
  exists s1. by destruct Hs as (_ & ? & ?).
Qed.

Lemma short_press d now until s :
  (d <? 500) = true ->
  button_released d now until s =
    (r ← (if negb (recording_active s) then
            if now <? until then
              print (MsgCooldownActive (until - now));;
              ret until
            else
              print MsgButtonStart;;
              folder ← create_recording_folder;
              started ← start_streaming_recording folder;
              if started : bool then
                print MsgCooldownStarted;;
                start_cooldown_blink (now + START_COOLDOWN * 1000);;
                ret (now + START_COOLDOWN * 1000)
              else
                print MsgFailedToStart;;
                ret until
          else
            print MsgButtonStop;;
            stop_streaming_recording;;
            ret until);
     sleep 200;;
     ret r) s.
Proof. intros Hd. unfold button_released. rewrite Hd. reflexivity. Qed.

(** A release of the button launches a process, starts a thread, moves the
    cooldown or lets an exception out only when it was a short press on a
    recorder whose flag is down and whose cooldown is over.  A long press, a
    press during the cooldown and a press that stops do none of these. *)
Theorem press_launches_only_when_idle_and_cooled
    (press_duration current_time start_cooldown_until : N) (s : state) :
  let r := button_released press_duration current_time start_cooldown_until s in
  length (ptable r.2) <> length (ptable s) \/ threads r.2 <> threads s \/
    r.1 <> Ok start_cooldown_until ->
  press_duration < 500 /\ recording_active s = false /\
  start_cooldown_until <= current_time.
Proof.
  simpl. destruct (press_duration <? 500) eqn:Hd.
  2: { unfold button_released. rewrite Hd. unfold sleep, emit.
       unfold mbind, M_bind, bind, modify, ret. simpl.
       intros [H|[H|H]]; done. }
  rewrite (short_press _ _ _ _ Hd).
  destruct (recording_active s) eqn:Ha; cbn [negb].
  { destruct (stop_after_print MsgButtonStop s) as (s' & E & Hl & Ht).
    unfold sleep, emit, print. unfold mbind, M_bind, bind, modify, ret. simpl.
    rewrite E. simpl. intros [H|[H|H]]; done. }
  destruct (current_time <? start_cooldown_until) eqn:Hc.
  { unfold sleep, emit, print. unfold mbind, M_bind, bind, modify, ret. simpl.
    intros [H|[H|H]]; done. }
  intros _. apply N.ltb_lt in Hd. apply N.ltb_ge in Hc. done.
Qed.

Lemma press_launches_only_when_idle_and_cooled_witness :
  (100 : N) < 500 /\ recording_active fresh = false /\ (0 : N) <= 10000.
Proof.
  apply (press_launches_only_when_idle_and_cooled 100 10000 0 fresh).
  left. vm_compute. discriminate.
Defined.

Lemma press_on_idle d now until s :
  d < 500 -> recording_active s = false -> until <= now ->
  button_released d now until s =
    (r ← (print MsgButtonStart;;
          folder ← create_recording_folder;
          started ← start_streaming_recording folder;
          if started : bool then
            print MsgCooldownStarted;;
            start_cooldown_blink (now + START_COOLDOWN * 1000);;
            ret (now + START_COOLDOWN * 1000)
          else
            print MsgFailedToStart;;
            ret until);
     sleep 200;;
     ret r) s.
Proof.
  intros Hd Ha Hc. apply N.ltb_lt in Hd. apply N.ltb_ge in Hc.
  rewrite (short_press _ _ _ _ Hd). by rewrite Ha, Hc.
Qed.


Lemma press_folder_raises d now until s e s1 :
  d < 500 -> recording_active s = false -> until <= now ->
  create_recording_folder (set_log (log s ++ [MsgButtonStart]) s) = (Raise e, s1) ->
  button_released d now until s = (Raise e, s1).
Proof.
  intros Hd Ha Hc E. rewrite (press_on_idle _ _ _ _ Hd Ha Hc).
  rewrite bind_assoc.
  rewrite (bind_run (print MsgButtonStart) _ s tt _ eq_refl).
  rewrite bind_assoc. by rewrite (bind_raise _ _ _ _ _ E).
Qed.



(** When the session folder cannot be made (something that is not a
    directory is at its path, or creating it is refused), a short press on an
    idle, cooled recorder lets the exception out of the button handler:
    nothing is launched, the flag stays down, the file system is untouched,
    and the debounce sleep of line 487 is skipped. *)
Theorem press_escapes_when_folder_cannot_be_made
    (press_duration current_time start_cooldown_until : N) (s : state) :
  press_duration < 500 -> recording_active s = false ->
  start_cooldown_until <= current_time ->
  let folder := path_join (assets_dir s) ("recording_" ++ clock s) in
  (exists n, fs s !! folder = Some n /\ n <> Dir) \/
  (fs s !! folder = None /\ folder ∈ deny_create s) ->
  let r := button_released press_duration current_time start_cooldown_until s in
  (exists e, r.1 = Raise e) /\
  fs r.2 = fs s /\ ptable r.2 = ptable s /\ threads r.2 = threads s /\
  recording_active r.2 = false /\
  trace r.2 = (trace s ++ [EvMakedirs folder])%list.
Proof.
  intros Hd Ha Hc folder Hf. simpl.
  set (s0 := set_log (log s ++ [MsgButtonStart]) s).
  destruct (create_recording_folder_raises s0 Hf) as (e & s1 & E).
  rewrite (press_folder_raises _ _ _ _ _ _ Hd Ha Hc E). simpl.
  destruct (create_recording_folder_raise s0 e s1 E) as (Hfs & Hcore & _ & Ht).
  unfold core in Hcore. simpl in *. simplify_eq.
  repeat split; try done; try congruence. by exists e.
Qed.

Lemma press_escapes_when_folder_cannot_be_made_witness :
  exists e, (button_released 100 10000 0 folder_taken).1 = Raise e.
Proof.
  assert (Hf : (exists n, fs folder_taken !!
                  path_join (assets_dir folder_taken) ("recording_" ++ clock folder_taken)
                  = Some n /\ n <> Dir) \/
               (fs folder_taken !!
                  path_join (assets_dir folder_taken) ("recording_" ++ clock folder_taken)
                  = None /\
                path_join (assets_dir folder_taken) ("recording_" ++ clock folder_taken)
                  ∈ deny_create folder_taken)).
  { left. exists (RegFile 7). split; [vm_compute; reflexivity | discriminate]. }
  exact (proj1 (press_escapes_when_folder_cannot_be_made 100 10000 0 folder_taken
                  eq_refl eq_refl ltac:(discriminate) Hf)).
Defined.
